(** * Student Learning Companion: the session orchestration, embedded in Rocq

    The development follows the TypeScript sources:
    - [types.ts]: the data model ([AgentType], [AgentLog], [LearningSession],
      [AppState]);
    - [services/geminiService.ts]: the five calls to the generative service
      ([generateAssessment], [adaptPath], [curateContent], [bridgeLanguage],
      [safetyCheck]);
    - [App.tsx]: the reducer [appReducer] and the handlers of the [App]
      component ([handleStart], [runAssessmentCycle], [handleAnswer],
      [runAdaptationCycle], [runContentCycle], [handleContentNext],
      [downloadPack]).

    Values that come back from [JSON.parse] are untyped at run time, so they
    are modelled as JavaScript values ([jsval]); the handlers are written in
    a state-and-exception monad over the component's state, [await] being
    sequencing: a handler is run from its first statement to its last with
    no other handler in between.  A handler reads [state] and the
    [useState] cells from the render that created it and writes through
    [dispatch] and the setters, so the two are kept apart.  The service is any function from the
    number of a call to its outcome.  Clock readings and random
    identifiers (timestamps, entry ids) are left out, and so is the fixed
    wording of prompts and trace details. *)

From Stdlib Require Import ZArith List String Ascii Bool Lia.
Import ListNotations.
Open Scope string_scope.
Open Scope list_scope.
Open Scope Z_scope.
Set Warnings "-register-all".

(** ** JavaScript values *)

(** The values [JSON.parse] can return, and [undefined] (the result of
    reading a property that is not there).  Numbers are the integers among
    the JavaScript numbers: the program only compares a number from the
    service with an option index.  An object is its list of own properties;
    reading a property takes the first binding of the key.

    A JavaScript string is a sequence of UTF-16 code units.  A [string]
    here is such a sequence with one [ascii] per code unit, so it stands
    for the JavaScript string whose code units are the codes of its
    elements, all below 256: the characters of Latin-1.  Lengths and
    positions count code units, as [length], [substring] and the regular
    expressions of the program do.  Text with a character beyond Latin-1
    has no counterpart here, and what is proved about topics, course names
    and contents is proved for Latin-1 text. *)
Inductive jsval : Type :=
| JUndefined
| JNull
| JBool (b : bool)
| JNumber (n : Z)
| JString (s : string)
| JArray (items : list jsval)
| JObject (fields : list (string * jsval)).

(** What a statement can throw.  [EmptyResponse] is the [Error("No response
    from ...")] of the service functions, [MalformedResponse] the
    [SyntaxError] of [JSON.parse], [TransportFailure] the rejection of
    [ai.models.generateContent] itself, [TypeError] the run-time error of
    reading a property of [null], calling a method that is not there or
    converting an object without a usable [toString]. *)
Inductive exn : Type :=
| EmptyResponse
| MalformedResponse
| TransportFailure
| TypeError.

Inductive result (A : Type) : Type :=
| Ok (a : A)
| Throw (e : exn).
Arguments Ok {A} a.
Arguments Throw {A} e.

Module Js.

Fixpoint lookup (k : string) (fields : list (string * jsval)) : option jsval :=
  match fields with
  | [] => None
  | (k', v) :: rest => if String.eqb k k' then Some v else lookup k rest
  end.

(** [v.k] for the property names the program reads (none of them is a
    property of a prototype): a [TypeError] on [null] and [undefined],
    the own property of an object, [undefined] otherwise. *)
Definition get (v : jsval) (k : string) : result jsval :=
  match v with
  | JUndefined | JNull => Throw TypeError
  | JObject fields =>
      match lookup k fields with
      | Some x => Ok x
      | None => Ok JUndefined
      end
  | _ => Ok JUndefined
  end.

(** [Boolean(v)], the test of [!v], [v ? a : b] and [v || d]. *)
Definition truthy (v : jsval) : bool :=
  match v with
  | JUndefined | JNull => false
  | JBool b => b
  | JNumber n => negb (n =? 0)
  | JString s => negb (String.eqb s "")
  | JArray _ | JObject _ => true
  end.

(** [a === b] where one side is a number, a string, a boolean, [null] or
    [undefined]; arrays and objects are equal only to themselves by
    identity, which no comparison of the program uses. *)
Definition strict_eq (a b : jsval) : bool :=
  match a, b with
  | JUndefined, JUndefined => true
  | JNull, JNull => true
  | JBool x, JBool y => Bool.eqb x y
  | JNumber x, JNumber y => x =? y
  | JString x, JString y => String.eqb x y
  | _, _ => false
  end.

Definition digit (n : nat) : ascii := ascii_of_nat (48 + n).

Fixpoint digits (fuel : nat) (n : nat) (acc : string) : string :=
  match fuel with
  | O => acc
  | S fuel' =>
      let acc' := String (digit (n mod 10)) acc in
      match (n / 10)%nat with
      | O => acc'
      | q => digits fuel' q acc'
      end
  end.

(** Decimal notation of an integer, as [String(n)] prints it (below
    10^21, where JavaScript changes to exponent notation). *)
Definition of_Z (n : Z) : string :=
  let m := Z.abs_nat n in
  let s := digits (S m) m "" in
  if n <? 0 then ("-" ++ s)%string else s.

Fixpoint join (parts : list string) : string :=
  match parts with
  | [] => ""
  | [p] => p
  | p :: rest => (p ++ "," ++ join rest)%string
  end.

Definition sequence {A} (rs : list (result A)) : result (list A) :=
  fold_right
    (fun r acc =>
       match r, acc with
       | Ok a, Ok l => Ok (a :: l)
       | Throw e, _ => Throw e
       | _, Throw e => Throw e
       end)
    (Ok []) rs.

(** [String(v)], the conversion a template literal applies to each of its
    substitutions.  An array joins its items with commas, [null] and
    [undefined] items giving the empty string; an object prints as
    [[object Object]] unless it has an own property [toString], which
    (never being a function in parsed JSON) shadows the inherited method
    and makes the conversion throw. *)
Fixpoint toStr (v : jsval) : result string :=
  match v with
  | JUndefined => Ok "undefined"
  | JNull => Ok "null"
  | JBool true => Ok "true"
  | JBool false => Ok "false"
  | JNumber n => Ok (of_Z n)
  | JString s => Ok s
  | JArray items =>
      match
        sequence
          (map (fun x =>
                  match x with
                  | JUndefined | JNull => Ok ""
                  | _ => toStr x
                  end) items)
      with
      | Ok parts => Ok (join parts)
      | Throw e => Throw e
      end
  | JObject fields =>
      match lookup "toString" fields with
      | Some _ => Throw TypeError
      | None => Ok "[object Object]"
      end
  end.

Definition upper (c : ascii) : ascii :=
  let n := nat_of_ascii c in
  if ((97 <=? n) && (n <=? 122))%nat then ascii_of_nat (n - 32) else c.

Definition lower (c : ascii) : ascii :=
  let n := nat_of_ascii c in
  if ((65 <=? n) && (n <=? 90))%nat then ascii_of_nat (n + 32) else c.

Fixpoint map_string (f : ascii -> ascii) (s : string) : string :=
  match s with
  | EmptyString => EmptyString
  | String c rest => String (f c) (map_string f rest)
  end.

(** [v.toUpperCase()]: only a string has the method.  The program puts
    the upper-case text into the detail of a trace entry, which is left
    out, so only the failure matters; the letters beyond ASCII are left
    as they are. *)
Definition toUpperCase (v : jsval) : result string :=
  match v with
  | JString s => Ok (map_string upper s)
  | _ => Throw TypeError
  end.

(** [v.substring(0, n)]: only a string has the method.  It keeps the
    first [n] code units. *)
Definition substring0 (n : nat) (v : jsval) : result string :=
  match v with
  | JString s => Ok (String.substring 0 n s)
  | _ => Throw TypeError
  end.

(** White space as [\s] and [trim] see it: among the code units below 256
    these are tab, line feed, vertical tab, form feed and carriage return
    (9 to 13), the space (32) and the no-break space (160).  The next-line
    control (133) is not white space in JavaScript. *)
Definition is_space (c : ascii) : bool :=
  let n := nat_of_ascii c in
  ((n =? 32) || ((9 <=? n) && (n <=? 13)) || (n =? 160))%nat.

Fixpoint all_space (s : string) : bool :=
  match s with
  | EmptyString => true
  | String c rest => is_space c && all_space rest
  end.

(** [s.trim()] is the empty string. *)
Definition blank (s : string) : bool := all_space s.

End Js.

(** ** The data model ([types.ts]) *)

Inductive AgentType : Type :=
| ASSESSMENT | ADAPTATION | CURATOR | LANGUAGE | SAFETY | SYSTEM.

Inductive Status : Type := pending | success | warning | error.

Inductive Difficulty : Type := easy | medium | hard.

Inductive Step : Type := idle | assessing | learning | summary.

Inductive EntryType : Type := quiz | content.

(** A trace entry.  Its [id] (a random string), its [timestamp] (the clock)
    and its [details] (free text for the reader, which can embed a random
    identifier) are not part of the model; what evaluating the details text
    can throw is kept in the handlers below. *)
Record AgentLog : Type := mkLog {
  agent : AgentType;
  action : string;
  status : Status
}.

(** [QuizQuestion] and [LearningMaterial] are what [JSON.parse] returned,
    cast to the interface without any check. *)
Definition QuizQuestion : Type := jsval.
Definition LearningMaterial : Type := jsval.

(** An entry of the session's history (its [timestamp] left out). *)
Record HistoryEntry : Type := mkEntry {
  type : EntryType;
  data : jsval;
  userResponse : option Z;
  isCorrect : option bool
}.

Record LearningSession : Type := mkSession {
  topic : string;
  courseName : string;
  gradeLevel : string;
  masteryScore : Z;
  history : list HistoryEntry
}.

Record AppState : Type := mkState {
  isOfflineMode : bool;
  isLowBandwidth : bool;
  currentStep : Step;
  logs : list AgentLog;
  session : option LearningSession;
  isLoading : bool
}.

(** ** The reducer ([App.tsx]) *)

Definition initialState : AppState :=
  {| isOfflineMode := false;
     isLowBandwidth := false;
     currentStep := idle;
     logs := [];
     session := None;
     isLoading := false |}.

(** The actions; [UNRECOGNIZED] stands for an action whose [type] is none
    of the eight, which the reducer's [default] branch receives. *)
Inductive Action : Type :=
| ADD_LOG (payload : AgentLog)
| START_SESSION (topic grade courseName : string)
| SET_LOADING (payload : bool)
| SET_CURRENT_QUESTION (payload : QuizQuestion)
| SET_CURRENT_CONTENT (payload : LearningMaterial)
| RECORD_ANSWER (question : QuizQuestion) (isCorrect : bool)
| TOGGLE_BANDWIDTH
| TOGGLE_OFFLINE_MODE
| UNRECOGNIZED.

Definition appReducer (state : AppState) (action : Action) : AppState :=
  match action with
  | ADD_LOG payload =>
      {| isOfflineMode := isOfflineMode state;
         isLowBandwidth := isLowBandwidth state;
         currentStep := currentStep state;
         logs := logs state ++ [payload];
         session := session state;
         isLoading := isLoading state |}
  | START_SESSION topic grade courseName =>
      {| isOfflineMode := isOfflineMode state;
         isLowBandwidth := isLowBandwidth state;
         currentStep := assessing;
         logs := [];
         session := Some {| topic := topic;
                            courseName := courseName;
                            gradeLevel := grade;
                            masteryScore := 0;
                            history := [] |};
         isLoading := isLoading state |}
  | SET_LOADING payload =>
      {| isOfflineMode := isOfflineMode state;
         isLowBandwidth := isLowBandwidth state;
         currentStep := currentStep state;
         logs := logs state;
         session := session state;
         isLoading := payload |}
  | SET_CURRENT_QUESTION _ =>
      {| isOfflineMode := isOfflineMode state;
         isLowBandwidth := isLowBandwidth state;
         currentStep := assessing;
         logs := logs state;
         session := session state;
         isLoading := false |}
  | SET_CURRENT_CONTENT _ =>
      {| isOfflineMode := isOfflineMode state;
         isLowBandwidth := isLowBandwidth state;
         currentStep := learning;
         logs := logs state;
         session := session state;
         isLoading := false |}
  | RECORD_ANSWER question isCorrect =>
      match session state with
      | None => state
      | Some s =>
          let newMastery :=
            if isCorrect
            then Z.min 100 (masteryScore s + 20)
            else Z.max 0 (masteryScore s - 10) in
          {| isOfflineMode := isOfflineMode state;
             isLowBandwidth := isLowBandwidth state;
             currentStep := currentStep state;
             logs := logs state;
             session := Some {| topic := topic s;
                                courseName := courseName s;
                                gradeLevel := gradeLevel s;
                                masteryScore := newMastery;
                                history := history s ++
                                  [ {| type := quiz;
                                       data := question;
                                       userResponse := None;
                                       isCorrect := Some isCorrect |} ] |};
             isLoading := isLoading state |}
      end
  | TOGGLE_BANDWIDTH =>
      {| isOfflineMode := isOfflineMode state;
         isLowBandwidth := negb (isLowBandwidth state);
         currentStep := currentStep state;
         logs := logs state;
         session := session state;
         isLoading := isLoading state |}
  | TOGGLE_OFFLINE_MODE =>
      {| isOfflineMode := negb (isOfflineMode state);
         isLowBandwidth := isLowBandwidth state;
         currentStep := currentStep state;
         logs := logs state;
         session := session state;
         isLoading := isLoading state |}
  | UNRECOGNIZED => state
  end.

(** ** The generative service ([services/geminiService.ts]) *)

(** [response.text] of a reply, by what the caller does with it: nothing
    there ([undefined] or the empty string, so [!text] holds), a text on
    which [JSON.parse] throws its [SyntaxError], or a text that
    [JSON.parse] reads as the value [v]. *)
Inductive response_text : Type :=
| NoText
| Unparsable
| Json (v : jsval).

(** The outcome of one [ai.models.generateContent] call. *)
Inductive reply : Type :=
| Rejected
| Resolved (text : response_text).

(** What each function puts into its prompt: the substitutions of the
    template literal, already converted to text.  The fixed wording of the
    prompts is not modelled. *)
Inductive request : Type :=
| AssessmentPrompt (grade topic contextStr : string) (difficulty : Difficulty)
| AdaptationPrompt (topic : string) (isCorrect : bool) (currentMastery : Z)
| CuratorPrompt (topic focusArea grade contextStr : string)
| LanguagePrompt (title content : string)
| SafetyPrompt (excerpt : string).

(** The document [downloadPack] serializes (its [timestamp] left out). *)
Module Pack.
Record t : Type := mk {
  course : string;
  studentLevel : string;
  topic : string;
  materials : list jsval;
  reviewQuizzes : list jsval;
  logs : list AgentLog
}.
End Pack.

(** ** The [App] component: its state and the monad of its handlers *)

(** Everything a handler reads or writes: the reducer's state, the
    [useState] cells, what [console.error] printed, the requests sent to
    the service so far, and the packs handed to the browser for download. *)
Record World : Type := mkWorld {
  state : AppState;
  currentQuestion : jsval;
  currentContent : jsval;
  topicInput : string;
  selectedSource : string;
  selectedCourse : string;
  console : list exn;
  requests : list request;
  downloads : list Pack.t
}.

Definition initialWorld : World :=
  {| state := initialState;
     currentQuestion := JNull;
     currentContent := JNull;
     topicInput := "";
     selectedSource := "";
     selectedCourse := "";
     console := [];
     requests := [];
     downloads := [] |}.

(** A statement run from a world: its value or the exception it throws,
    and the world it leaves.  Effects made before a [throw] stay. *)
Definition M (A : Type) : Type := World -> result A * World.

Definition ret {A} (a : A) : M A := fun w => (Ok a, w).

Definition throw {A} (e : exn) : M A := fun w => (Throw e, w).

Definition bind {A B} (m : M A) (k : A -> M B) : M B :=
  fun w =>
    match m w with
    | (Ok a, w') => k a w'
    | (Throw e, w') => (Throw e, w')
    end.

(** [try { body } catch (e) { handler e }] *)
Definition try_catch {A} (body : M A) (handler : exn -> M A) : M A :=
  fun w =>
    match body w with
    | (Ok a, w') => (Ok a, w')
    | (Throw e, w') => handler e w'
    end.

(** A pure expression that may throw. *)
Definition lift {A} (r : result A) : M A := fun w => (r, w).

Declare Scope js_scope.
Delimit Scope js_scope with js.
Notation "x <- m ;; k" := (bind m (fun x => k))
  (at level 61, m at next level, right associativity) : js_scope.
Notation "m ;; k" := (bind m (fun _ => k))
  (at level 61, right associativity) : js_scope.
Open Scope js_scope.

Definition dispatch (a : Action) : M unit :=
  fun w =>
    (Ok tt,
     {| state := appReducer (state w) a;
        currentQuestion := currentQuestion w;
        currentContent := currentContent w;
        topicInput := topicInput w;
        selectedSource := selectedSource w;
        selectedCourse := selectedCourse w;
        console := console w;
        requests := requests w;
        downloads := downloads w |}).

Definition setCurrentQuestion (q : jsval) : M unit :=
  fun w =>
    (Ok tt,
     {| state := state w;
        currentQuestion := q;
        currentContent := currentContent w;
        topicInput := topicInput w;
        selectedSource := selectedSource w;
        selectedCourse := selectedCourse w;
        console := console w;
        requests := requests w;
        downloads := downloads w |}).

Definition setCurrentContent (c : jsval) : M unit :=
  fun w =>
    (Ok tt,
     {| state := state w;
        currentQuestion := currentQuestion w;
        currentContent := c;
        topicInput := topicInput w;
        selectedSource := selectedSource w;
        selectedCourse := selectedCourse w;
        console := console w;
        requests := requests w;
        downloads := downloads w |}).

Definition setTopicInput (s : string) : M unit :=
  fun w =>
    (Ok tt,
     {| state := state w;
        currentQuestion := currentQuestion w;
        currentContent := currentContent w;
        topicInput := s;
        selectedSource := selectedSource w;
        selectedCourse := selectedCourse w;
        console := console w;
        requests := requests w;
        downloads := downloads w |}).

Definition setSelectedSource (s : string) : M unit :=
  fun w =>
    (Ok tt,
     {| state := state w;
        currentQuestion := currentQuestion w;
        currentContent := currentContent w;
        topicInput := topicInput w;
        selectedSource := s;
        selectedCourse := selectedCourse w;
        console := console w;
        requests := requests w;
        downloads := downloads w |}).

Definition setSelectedCourse (s : string) : M unit :=
  fun w =>
    (Ok tt,
     {| state := state w;
        currentQuestion := currentQuestion w;
        currentContent := currentContent w;
        topicInput := topicInput w;
        selectedSource := selectedSource w;
        selectedCourse := s;
        console := console w;
        requests := requests w;
        downloads := downloads w |}).

(** [console.error(e)] *)
Definition console_error (e : exn) : M unit :=
  fun w =>
    (Ok tt,
     {| state := state w;
        currentQuestion := currentQuestion w;
        currentContent := currentContent w;
        topicInput := topicInput w;
        selectedSource := selectedSource w;
        selectedCourse := selectedCourse w;
        console := console w ++ [e];
        requests := requests w;
        downloads := downloads w |}).

(** The browser download of [downloadPack]: the serialized pack leaves the
    component. *)
Definition download (p : Pack.t) : M unit :=
  fun w =>
    (Ok tt,
     {| state := state w;
        currentQuestion := currentQuestion w;
        currentContent := currentContent w;
        topicInput := topicInput w;
        selectedSource := selectedSource w;
        selectedCourse := selectedCourse w;
        console := console w;
        requests := requests w;
        downloads := downloads w ++ [p] |}).

(** [JSON.parse(text)] *)
Definition JSON_parse (text : response_text) : M jsval :=
  match text with
  | Json v => ret v
  | NoText | Unparsable => throw MalformedResponse
  end.

(** ** The grade of a course name ([handleStart]) *)

(** [selectedCourse.match(/(?:Grades?|Class)[-\s]+([IVX]+|[0-9]+)/i)]: the
    first place where, letter case ignored, [Grade], [Grades] or [Class] is
    followed by at least one hyphen or white space and then by a run of the
    letters I, V, X or a run of digits; the result is that run.  With
    the flag [i] a letter of the pattern matches its two cases; no other
    code unit below 256 has I, V, X or a letter of the three words as its
    upper case. *)
Module Grade.

Fixpoint span (f : ascii -> bool) (s : string) : string * string :=
  match s with
  | EmptyString => (EmptyString, EmptyString)
  | String c rest =>
      if f c
      then let (run, tail) := span f rest in (String c run, tail)
      else (EmptyString, s)
  end.

(** [s] without the prefix [p] (given in lower case), letter case
    ignored. *)
Fixpoint strip (p s : string) : option string :=
  match p, s with
  | EmptyString, _ => Some s
  | String a p', String b s' =>
      if Ascii.eqb a (Js.lower b) then strip p' s' else None
  | String _ _, EmptyString => None
  end.

Definition is_sep (c : ascii) : bool :=
  Ascii.eqb c "-"%char || Js.is_space c.

Definition is_roman (c : ascii) : bool :=
  let l := Js.lower c in
  Ascii.eqb l "i"%char || Ascii.eqb l "v"%char || Ascii.eqb l "x"%char.

Definition is_digit (c : ascii) : bool :=
  let n := nat_of_ascii c in ((48 <=? n) && (n <=? 57))%nat.

(** [[-\s]+([IVX]+|[0-9]+)] at the start of [s]. *)
Definition numeral (s : string) : option string :=
  match span is_sep s with
  | (EmptyString, _) => None
  | (_, rest) =>
      match span is_roman rest with
      | (String c r, _) => Some (String c r)
      | (EmptyString, _) =>
          match span is_digit rest with
          | (String c r, _) => Some (String c r)
          | (EmptyString, _) => None
          end
      end
  end.

Definition after (keyword s : string) : option string :=
  match strip keyword s with
  | Some rest => numeral rest
  | None => None
  end.

(** The whole pattern at the start of [s]: [Grades?] tries the longer
    word first. *)
Definition here (s : string) : option string :=
  match after "grades" s with
  | Some g => Some g
  | None =>
      match after "grade" s with
      | Some g => Some g
      | None => after "class" s
      end
  end.

Fixpoint gradeMatch (s : string) : option string :=
  match here s with
  | Some g => Some g
  | None =>
      match s with
      | EmptyString => None
      | String _ rest => gradeMatch rest
      end
  end.

End Grade.

(** ** The service functions and the handlers *)

Section Gateway.

(** The service: the outcome of the [n]-th call made to it. *)
Variable service : nat -> reply.

(** [await ai.models.generateContent(...)] followed by [response.text]:
    the request goes out, and the call either rejects or gives the text
    of the reply. *)
Definition generateContent (req : request) : M response_text :=
  fun w =>
    let w' :=
      {| state := state w;
         currentQuestion := currentQuestion w;
         currentContent := currentContent w;
         topicInput := topicInput w;
         selectedSource := selectedSource w;
         selectedCourse := selectedCourse w;
         console := console w;
         requests := requests w ++ [req];
         downloads := downloads w |} in
    match service (List.length (requests w)) with
    | Rejected => (Throw TransportFailure, w')
    | Resolved text => (Ok text, w')
    end.

Definition generateAssessment (topic : jsval) (grade : string)
    (previousMastery : Z) (courseContext : option string) : M QuizQuestion :=
  let difficulty :=
    if previousMastery >? 70 then hard
    else if previousMastery >? 40 then medium
    else easy in
  let contextStr :=
    match courseContext with
    | Some c =>
        if String.eqb c "" then ""
        else ("Context: " ++ c ++ " (National Curriculum).")%string
    | None => ""
    end in
  topic' <- lift (Js.toStr topic) ;;
  text <- generateContent (AssessmentPrompt grade topic' contextStr difficulty) ;;
  match text with
  | NoText => throw EmptyResponse
  | _ => JSON_parse text
  end.

Definition adaptPath (isCorrect : bool) (currentMastery : Z) (topic : jsval)
  : M jsval :=
  topic' <- lift (Js.toStr topic) ;;
  text <- generateContent (AdaptationPrompt topic' isCorrect currentMastery) ;;
  match text with
  | NoText => throw EmptyResponse
  | _ => JSON_parse text
  end.

Definition curateContent (topic : jsval) (grade : string) (focusArea : jsval)
    (courseContext : option string) : M LearningMaterial :=
  let contextStr :=
    match courseContext with
    | Some c =>
        if String.eqb c "" then "Source Material: General National Curriculum."
        else ("Source Material: " ++ c ++ " (National Curriculum).")%string
    | None => "Source Material: General National Curriculum."
    end in
  topic' <- lift (Js.toStr topic) ;;
  focus' <- lift (Js.toStr focusArea) ;;
  text <- generateContent (CuratorPrompt topic' focus' grade contextStr) ;;
  match text with
  | NoText => throw EmptyResponse
  | _ => JSON_parse text
  end.

Definition bridgeLanguage (material : LearningMaterial) : M LearningMaterial :=
  title <- lift (Js.get material "title") ;;
  title' <- lift (Js.toStr title) ;;
  body <- lift (Js.get material "content") ;;
  body' <- lift (Js.toStr body) ;;
  text <- generateContent (LanguagePrompt title' body') ;;
  match text with
  | NoText => throw EmptyResponse
  | _ => JSON_parse text
  end.

Definition safetyCheck (content : jsval) : M jsval :=
  excerpt <- lift (Js.substring0 500 content) ;;
  text <- generateContent (SafetyPrompt excerpt) ;;
  match text with
  | NoText => ret (JObject [("safe", JBool true)])
  | _ => JSON_parse text
  end.

End Gateway.

(** ** The handlers of [App] *)

Definition is_quiz (t : EntryType) : bool :=
  match t with quiz => true | content => false end.

Definition is_content (t : EntryType) : bool :=
  match t with content => true | quiz => false end.

Section Component.

Variable service : nat -> reply.

(** The values the closures of one render captured: [state],
    [currentQuestion], [currentContent] and the inputs of the start form
    as they were when the component was last rendered.  A [dispatch] or
    a [set...] made by a handler changes the component's state, not
    these. *)
Variable rendered : World.

Definition logAgent (agent : AgentType) (action : string) : M unit :=
  dispatch (ADD_LOG {| agent := agent; action := action; status := success |}).

(** 2. Assessment cycle.  The details of the second entry read
    [quiz.difficulty]. *)
Definition runAssessmentCycle (topic : jsval) (grade : string) (mastery : Z)
    (courseContext : option string) : M unit :=
  dispatch (SET_LOADING true) ;;
  try_catch
    (logAgent ASSESSMENT "Generating Quiz" ;;
     quiz <- generateAssessment service topic grade mastery courseContext ;;
     difficulty <- lift (Js.get quiz "difficulty") ;;
     _ <- lift (Js.toStr difficulty) ;;
     logAgent ASSESSMENT "Quiz Ready" ;;
     setCurrentQuestion quiz ;;
     dispatch (SET_CURRENT_QUESTION quiz))
    (fun e =>
       console_error e ;;
       logAgent SYSTEM "Error" ;;
       dispatch (SET_LOADING false)).

(** 5. Content cycle (curator, safety, language).  The details of the
    entries read [focus], [rawContent.title] and [safety.reason]. *)
Definition runContentCycle (topic : jsval) (grade : string) (focus : jsval)
    (courseContext : string) : M unit :=
  try_catch
    (_ <- lift (Js.toStr focus) ;;
     logAgent CURATOR "Sourcing Content" ;;
     rawContent <- curateContent service topic grade focus (Some courseContext) ;;
     title <- lift (Js.get rawContent "title") ;;
     _ <- lift (Js.toStr title) ;;
     logAgent CURATOR "Content Found" ;;
     logAgent SAFETY "Filtering" ;;
     body <- lift (Js.get rawContent "content") ;;
     safety <- safetyCheck service body ;;
     safe <- lift (Js.get safety "safe") ;;
     (if negb (Js.truthy safe)
      then
        reason <- lift (Js.get safety "reason") ;;
        _ <- lift (Js.toStr reason) ;;
        logAgent SAFETY "Blocked"
      else
        logAgent SAFETY "Verified") ;;
     logAgent LANGUAGE "Localizing" ;;
     localizedContent <- bridgeLanguage service rawContent ;;
     logAgent LANGUAGE "Ready" ;;
     setCurrentContent localizedContent ;;
     dispatch (SET_CURRENT_CONTENT localizedContent))
    (fun e =>
       console_error e ;;
       dispatch (SET_LOADING false)).

(** [state.session?.gradeLevel || "9"] *)
Definition gradeOrDefault : string :=
  match session (state rendered) with
  | Some s => if String.eqb (gradeLevel s) "" then "9" else gradeLevel s
  | None => "9"
  end.

(** 4. Adaptation cycle.  The details of the second entry read
    [plan.nextAction.toUpperCase()] and [plan.reasoning]. *)
Definition runAdaptationCycle (lastCorrect : bool) (mastery : Z)
    (topic : jsval) (courseContext : string) : M unit :=
  dispatch (SET_LOADING true) ;;
  setCurrentQuestion JNull ;;
  logAgent ADAPTATION "Analyzing Path" ;;
  try_catch
    (plan <- adaptPath service lastCorrect mastery topic ;;
     nextAction <- lift (Js.get plan "nextAction") ;;
     _ <- lift (Js.toUpperCase nextAction) ;;
     reasoning <- lift (Js.get plan "reasoning") ;;
     _ <- lift (Js.toStr reasoning) ;;
     logAgent ADAPTATION "Path Updated" ;;
     if Js.strict_eq nextAction (JString "quiz")
     then runAssessmentCycle topic gradeOrDefault mastery (Some courseContext)
     else
       suggestedFocus <- lift (Js.get plan "suggestedFocus") ;;
       runContentCycle topic gradeOrDefault suggestedFocus courseContext)
    (fun e =>
       console_error e ;;
       dispatch (SET_LOADING false)).

(** 1. Start session, then the first assessment. *)
Definition handleStart : M unit :=
  if Js.blank (topicInput rendered) || String.eqb (selectedCourse rendered) ""
  then ret tt
  else
    let grade :=
      match Grade.gradeMatch (selectedCourse rendered) with
      | Some g => g
      | None => "9"
      end in
    let fullContext :=
      (selectedSource rendered ++ ": " ++ selectedCourse rendered)%string in
    dispatch (START_SESSION (topicInput rendered) grade fullContext) ;;
    logAgent SYSTEM "Initialization" ;;
    runAssessmentCycle (JString (topicInput rendered)) grade 0 (Some fullContext).

(** 3. The user answers the quiz.  [state.session.masteryScore] is read
    from the render's [state], after the [dispatch] as before it. *)
Definition handleAnswer (index : Z) : M unit :=
  match session (state rendered) with
  | None => ret tt
  | Some s =>
      if negb (Js.truthy (currentQuestion rendered))
      then ret tt
      else
        correctOptionIndex <-
          lift (Js.get (currentQuestion rendered) "correctOptionIndex") ;;
        let isCorrect := Js.strict_eq (JNumber index) correctOptionIndex in
        logAgent SYSTEM "User Input" ;;
        dispatch (RECORD_ANSWER (currentQuestion rendered) isCorrect) ;;
        topic <- lift (Js.get (currentQuestion rendered) "topic") ;;
        runAdaptationCycle isCorrect (masteryScore s) topic (courseName s)
  end.

(** 6. Next from content. *)
Definition handleContentNext : M unit :=
  setCurrentContent JNull ;;
  match session (state rendered) with
  | Some s =>
      runAssessmentCycle (JString (topic s)) (gradeLevel s) (masteryScore s)
        (Some (courseName s))
  | None => ret tt
  end.

(** 7. Offline pack export (the name of the downloaded file is not
    modelled). *)
Definition downloadPack : M unit :=
  match session (state rendered) with
  | None => ret tt
  | Some s =>
      let packData :=
        {| Pack.course := courseName s;
           Pack.studentLevel := gradeLevel s;
           Pack.topic := topic s;
           Pack.materials :=
             map data (filter (fun h => is_content (type h)) (history s));
           Pack.reviewQuizzes :=
             map data (filter (fun h => is_quiz (type h)) (history s));
           Pack.logs := logs (state rendered) |} in
      download packData ;;
      logAgent SYSTEM "Offline Export"
  end.

End Component.

(** ** The component as a transition system *)

(** What the user can do: edit the start form, press Start, press one of
    the option buttons of [QuizCard], press Continue on [ContentCard],
    switch the bandwidth mode, export the pack.

    The transition system below is the component in single flight: every
    event comes when the handler of the event before has run to its end,
    an answer being the click on an option together with the call of
    [handleAnswer] that [QuizCard] makes 600 ms later.  The component
    itself does not enforce this.  While a call is in flight the loading
    overlay covers the cards, but the two buttons of the header stay
    usable; and a second click on an option within the 600 ms starts a
    second [handleAnswer] from the render of the first.  Such runs are
    not runs of this system: [reachable] and the theorems that assume it
    speak of single flight only, the theorems about [fire] and about the
    handlers hold from every world. *)
Inductive event : Type :=
| EditTopic (text : string)
| SelectSource (source : string)
| SelectCourse (course : string)
| Start
| Answer (index : Z)
| Continue
| ToggleBandwidth
| Export.

(** [QuizCard] is on screen. *)
Definition quizShown (w : World) : bool :=
  negb (isLoading (state w))
  && match currentStep (state w) with assessing => true | _ => false end
  && Js.truthy (currentQuestion w).

(** [ContentCard] is on screen. *)
Definition contentShown (w : World) : bool :=
  negb (isLoading (state w))
  && match currentStep (state w) with learning => true | _ => false end
  && Js.truthy (currentContent w).

(** The start form is on screen. *)
Definition formShown (w : World) : bool :=
  match currentStep (state w) with idle => true | _ => false end.

(** [index] is the position of one of the buttons [QuizCard] draws, one per
    item of [question.options]. *)
Definition optionIndex (question : jsval) (index : Z) : bool :=
  match Js.get question "options" with
  | Ok (JArray items) => (0 <=? index) && (index <? Z.of_nat (List.length items))
  | _ => false
  end.

(** The control behind an event is on screen and not disabled. *)
Definition enabled (w : World) (ev : event) : bool :=
  match ev with
  | EditTopic _ | SelectSource _ => formShown w
  | SelectCourse _ => formShown w && negb (String.eqb (selectedSource w) "")
  | Start =>
      formShown w
      && negb (String.eqb (selectedCourse w) "")
      && negb (String.eqb (topicInput w) "")
  | Answer index => quizShown w && optionIndex (currentQuestion w) index
  | Continue => contentShown w
  | ToggleBandwidth => true
  | Export => match session (state w) with Some _ => true | None => false end
  end.

Section Run.

Variable service : nat -> reply.

(** A handler of the current render, run to its end with no other handler
    in between. *)
Definition run (handler : World -> M unit) (w : World) : World :=
  snd (handler w w).

Definition fire (ev : event) (w : World) : World :=
  match ev with
  | EditTopic text => run (fun _ => setTopicInput text) w
  | SelectSource source =>
      run (fun _ => setSelectedSource source ;; setSelectedCourse "") w
  | SelectCourse course => run (fun _ => setSelectedCourse course) w
  | Start => run (handleStart service) w
  | Answer index => run (fun r => handleAnswer service r index) w
  | Continue => run (handleContentNext service) w
  | ToggleBandwidth => run (fun _ => dispatch TOGGLE_BANDWIDTH) w
  | Export => run downloadPack w
  end.

Definition fireAll (evs : list event) (w : World) : World :=
  fold_left (fun w ev => fire ev w) evs w.

(** The worlds the user brings about in single flight: each event is
    enabled in the world the events before it have left. *)
Inductive reachable : World -> Prop :=
| reachable_initial : reachable initialWorld
| reachable_fire w ev :
    reachable w -> enabled w ev = true -> reachable (fire ev w).

End Run.

(** A service for the examples: it answers the calls, in order, with the
    listed replies and rejects every call after them. *)
Definition scripted (replies : list reply) : nat -> reply :=
  fun n => nth n replies Rejected.

(** Values for the examples: a well-formed question whose correct option is
    [correct], a decision, a material, a verdict of the safety check, and a
    session in the middle of an assessment at mastery [m]. *)
Definition sampleQuestion (correct : Z) : jsval :=
  JObject [("questionText", JString "2 + 2 = ?");
           ("options", JArray [JString "3"; JString "4"; JString "5";
                               JString "22"]);
           ("correctOptionIndex", JNumber correct);
           ("explanation", JString "Count on from two.");
           ("difficulty", JString "easy");
           ("topic", JString "Algebra")].

Definition sampleDecision (nextAction : string) : jsval :=
  JObject [("nextAction", JString nextAction);
           ("reasoning", JString "needs practice");
           ("suggestedFocus", JString "addition")].

Definition sampleMaterial (languageMode : string) : jsval :=
  JObject [("title", JString "Adding numbers");
           ("content", JString "To add, count on.");
           ("readingLevel", JString "Grade 9");
           ("sourceAttribution", JString "Punjab Curriculum Grade 9");
           ("languageMode", JString languageMode)].

Definition sampleVerdict (safe : bool) : jsval :=
  JObject [("safe", JBool safe); ("reason", JString "off-topic")].

Definition assessingAt (m : Z) (question : jsval) : World :=
  {| state :=
       {| isOfflineMode := false;
          isLowBandwidth := false;
          currentStep := assessing;
          logs := [];
          session := Some {| topic := "Algebra";
                             courseName := "Punjab: Grade IX Mathematics";
                             gradeLevel := "IX";
                             masteryScore := m;
                             history := [] |};
          isLoading := false |};
     currentQuestion := question;
     currentContent := JNull;
     topicInput := "Algebra";
     selectedSource := "Punjab";
     selectedCourse := "Grade IX Mathematics";
     console := [];
     requests := [];
     downloads := [] |}.

(** A session whose history holds a quiz entry, a content entry and a
    second quiz entry, as the data model allows. *)
Definition mixedHistory : LearningSession :=
  {| topic := "Algebra";
     courseName := "Punjab: Grade IX Mathematics";
     gradeLevel := "IX";
     masteryScore := 10;
     history :=
       [ {| type := quiz; data := sampleQuestion 1; userResponse := None;
            isCorrect := Some true |};
         {| type := content; data := sampleMaterial "urdu_mix";
            userResponse := None; isCorrect := None |};
         {| type := quiz; data := sampleQuestion 0; userResponse := None;
            isCorrect := Some false |} ] |}.

Definition mixedWorld : World :=
  {| state := {| isOfflineMode := false; isLowBandwidth := false;
                 currentStep := assessing; logs := [];
                 session := Some mixedHistory; isLoading := false |};
     currentQuestion := sampleQuestion 2;
     currentContent := JNull;
     topicInput := "Algebra";
     selectedSource := "Punjab";
     selectedCourse := "Grade IX Mathematics";
     console := []; requests := []; downloads := [] |}.

(** ** The views ([components/AgentTrace.tsx], [components/QuizCard.tsx])
    and the name of the exported file *)

(** [getAgentColor]: the classes of a trace entry.  (The [default] branch
    of its [switch] has no agent left to serve.) *)
Definition getAgentColor (agent : AgentType) (lowBandwidth : bool) : string :=
  if lowBandwidth then "border-gray-800 text-gray-900 bg-white"
  else
    match agent with
    | ASSESSMENT => "bg-blue-50 border-blue-200 text-blue-800"
    | ADAPTATION => "bg-purple-50 border-purple-200 text-purple-800"
    | CURATOR => "bg-green-50 border-green-200 text-green-800"
    | LANGUAGE => "bg-orange-50 border-orange-200 text-orange-800"
    | SAFETY => "bg-red-50 border-red-200 text-red-800"
    | SYSTEM => "bg-gray-50 border-gray-200 text-gray-800"
    end.

(** [QuizCard]: its [selected] cell and the calls of [onAnswer] it has
    handed to [setTimeout], each with its delay in milliseconds. *)
Module QuizCard.

Record t : Type := mk {
  selected : option Z;
  scheduled : list (Z * Z)
}.

(** The card as first rendered. *)
Definition initial : t := {| selected := None; scheduled := [] |}.

Definition handleSelect (disabled : bool) (idx : Z) (card : t) : t :=
  if disabled then card
  else {| selected := Some idx;
          scheduled := scheduled card ++ [(600, idx)] |}.

(** The clicks of a list, one after the other. *)
Definition clicks (disabled : bool) (idxs : list Z) (card : t) : t :=
  fold_left (fun c idx => handleSelect disabled idx c) idxs card.

End QuizCard.

(** [topic.replace(/\s+/g, '-')]: every maximal run of white space becomes
    one hyphen.  [inRun] says that the character before was white space. *)
Fixpoint hyphenate (inRun : bool) (s : string) : string :=
  match s with
  | EmptyString => EmptyString
  | String c rest =>
      if Js.is_space c
      then if inRun then hyphenate true rest
           else String "-"%char (hyphenate true rest)
      else String c (hyphenate false rest)
  end.

(** The name [downloadPack] gives the file ([a.download]); the world keeps
    the pack handed over, not the name. *)
Definition packFileName (topic : string) : string :=
  ("learning-pack-" ++ hyphenate false topic ++ ".json")%string.

(** ** Notions used to state the properties *)

(** The agent a request is addressed to. *)
Definition requestAgent (r : request) : AgentType :=
  match r with
  | AssessmentPrompt _ _ _ _ => ASSESSMENT
  | AdaptationPrompt _ _ _ => ADAPTATION
  | CuratorPrompt _ _ _ _ => CURATOR
  | LanguagePrompt _ _ => LANGUAGE
  | SafetyPrompt _ => SAFETY
  end.

(** The thresholds of [generateAssessment], as a function of the mastery. *)
Definition difficultyOf (mastery : Z) : Difficulty :=
  if mastery >? 70 then hard else if mastery >? 40 then medium else easy.

(** The history entry [RECORD_ANSWER] writes. *)
Definition quizEntry (question : jsval) (correct : bool) : HistoryEntry :=
  {| type := quiz; data := question; userResponse := None;
     isCorrect := Some correct |}.

(** A run of answers to the questions [questions], all right or all
    wrong, recorded one after the other. *)
Definition recordAll (correct : bool) (questions : list jsval)
    (state : AppState) : AppState :=
  fold_left (fun st q => appReducer st (RECORD_ANSWER q correct)) questions
    state.

(** The two types of history entry can be told apart. *)
Definition EntryType_eq_dec (a b : EntryType) : {a = b} + {a <> b}.
Proof. decide equality. Defined.

(** The history entries of a type: how many quiz attempts, how many
    content exposures a history holds. *)
Definition entriesOfType (t : EntryType) (entries : list HistoryEntry) : nat :=
  count_occ EntryType_eq_dec (map type entries) t.


(** The world with the bandwidth switch in a given position. *)
Definition withBandwidth (low : bool) (w : World) : World :=
  {| state :=
       {| isOfflineMode := isOfflineMode (state w);
          isLowBandwidth := low;
          currentStep := currentStep (state w);
          logs := logs (state w);
          session := session (state w);
          isLoading := isLoading (state w) |};
     currentQuestion := currentQuestion w;
     currentContent := currentContent w;
     topicInput := topicInput w;
     selectedSource := selectedSource w;
     selectedCourse := selectedCourse w;
     console := console w;
     requests := requests w;
     downloads := downloads w |}.

(** Past the start form with neither a question nor a material: no card is
    on screen. *)
Definition deadEnd (w : World) : Prop :=
  currentStep (state w) <> idle
  /\ currentQuestion w = JNull
  /\ currentContent w = JNull.

(** What a caller gets from a reply when the text is only parsed: the
    transport's failure, [EmptyResponse] for no text, [MalformedResponse]
    for a text that is not JSON, and the parsed value otherwise, whatever
    its shape. *)
Definition parsedOnly (r : reply) : result jsval :=
  match r with
  | Rejected => Throw TransportFailure
  | Resolved NoText => Throw EmptyResponse
  | Resolved Unparsable => Throw MalformedResponse
  | Resolved (Json v) => Ok v
  end.

(** What no cycle changes: the session, the inputs of the start form, the
    display switches and the packs already downloaded. *)
Definition untouched (w w' : World) : Prop :=
  session (state w') = session (state w)
  /\ isLowBandwidth (state w') = isLowBandwidth (state w)
  /\ isOfflineMode (state w') = isOfflineMode (state w)
  /\ topicInput w' = topicInput w
  /\ selectedSource w' = selectedSource w
  /\ selectedCourse w' = selectedCourse w
  /\ downloads w' = downloads w.

(** A trace entry as [logAgent] writes it. *)
Definition logged (agent : AgentType) (action : string) : AgentLog :=
  {| agent := agent; action := action; status := success |}.

(** Between two events of a run in single flight: before a session starts
    nothing is shown and there is no session; a question and a material are never
    current together; once the start form is gone there is a session;
    nothing is loading; the mastery is between 0 and 100 and the history
    holds quiz entries only. *)
Definition settled (w : World) : Prop :=
  (currentStep (state w) = idle ->
   currentQuestion w = JNull /\ currentContent w = JNull
   /\ session (state w) = None)
  /\ (currentQuestion w = JNull \/ currentContent w = JNull)
  /\ (currentStep (state w) <> idle -> session (state w) <> None)
  /\ isLoading (state w) = false
  /\ (forall s, session (state w) = Some s ->
        0 <= masteryScore s <= 100
        /\ Forall (fun h => type h = quiz) (history s)).

(** Every event of a list is enabled when its turn comes. *)
Fixpoint enabledAll (service : nat -> reply) (evs : list event) (w : World)
  : bool :=
  match evs with
  | [] => true
  | ev :: rest => enabled w ev && enabledAll service rest (fire service ev w)
  end.


(** The user picks a board and a course and types a topic. *)
Definition fillForm : list event :=
  [SelectSource "Punjab"; SelectCourse "Grade IX Mathematics";
   EditTopic "Algebra"].

(** The entries [runAssessmentCycle] writes when its call fails. *)
Definition isSystemError (entry : AgentLog) : bool :=
  match agent entry with
  | SYSTEM => String.eqb (action entry) "Error"
  | _ => false
  end.

Definition systemErrors (entries : list AgentLog) : nat :=
  List.length (filter isSystemError entries).

(** * Properties *)

(** ** The reducer *)

(** C10.  Of the reducer's actions only [START_SESSION] and
    [RECORD_ANSWER] touch the session: after [ADD_LOG], [SET_LOADING],
    [SET_CURRENT_QUESTION], [SET_CURRENT_CONTENT], [TOGGLE_BANDWIDTH],
    [TOGGLE_OFFLINE_MODE] and an unrecognized action the session (topic,
    course name, grade level, mastery score, history) is the one before. *)
Theorem appReducer_session_frame (state : AppState) :
  (forall entry, session (appReducer state (ADD_LOG entry)) = session state)
  /\ (forall flag, session (appReducer state (SET_LOADING flag)) = session state)
  /\ (forall q, session (appReducer state (SET_CURRENT_QUESTION q)) = session state)
  /\ (forall c, session (appReducer state (SET_CURRENT_CONTENT c)) = session state)
  /\ session (appReducer state TOGGLE_BANDWIDTH) = session state
  /\ session (appReducer state TOGGLE_OFFLINE_MODE) = session state
  /\ session (appReducer state UNRECOGNIZED) = session state.
Proof.
  repeat split; intros; reflexivity.
Qed.

(** The two actions left out above do change the session. *)
Lemma appReducer_session_writers :
  session (appReducer initialState (START_SESSION "Algebra" "9" "Board: Grade 9"))
    <> session initialState
  /\ (forall state s q,
         session state = Some s ->
         session (appReducer state (RECORD_ANSWER q true)) <> session state).
Proof.
  split.
  - discriminate.
  - intros state s q Hs. simpl. rewrite Hs. intros H.
    injection H as H. apply (f_equal (fun x => List.length (history x))) in H.
    simpl in H. rewrite length_app in H. simpl in H. lia.
Qed.

(** The mastery update of [RECORD_ANSWER], on the reducer alone. *)
Lemma appReducer_record_answer (state : AppState) (s : LearningSession)
    (q : QuizQuestion) (correct : bool) :
  session state = Some s ->
  exists s',
    session (appReducer state (RECORD_ANSWER q correct)) = Some s'
    /\ masteryScore s' =
         (if correct then Z.min 100 (masteryScore s + 20)
          else Z.max 0 (masteryScore s - 10))
    /\ history s' =
         history s ++ [ {| type := quiz; data := q; userResponse := None;
                           isCorrect := Some correct |} ]
    /\ topic s' = topic s /\ courseName s' = courseName s
    /\ gradeLevel s' = gradeLevel s.
Proof.
  intros Hs. simpl. rewrite Hs. eexists. split; [reflexivity|].
  simpl. repeat split; reflexivity.
Qed.

Lemma mastery_update_in_range (m : Z) (correct : bool) :
  0 <= m <= 100 ->
  0 <= (if correct then Z.min 100 (m + 20) else Z.max 0 (m - 10)) <= 100.
Proof. destruct correct; lia. Qed.

(** ** The start form *)

(** The course names the comment of [handleStart] lists, and one without a
    grade, for which the default "9" is used. *)
Example gradeMatch_supported_names :
  Grade.gradeMatch "Physics Grade IX" = Some "IX"
  /\ Grade.gradeMatch "Science Grades VI-VIII" = Some "VI"
  /\ Grade.gradeMatch "Class-X" = Some "X"
  /\ Grade.gradeMatch "Class-IV" = Some "IV"
  /\ Grade.gradeMatch "class 12 Biology" = Some "12"
  /\ Grade.gradeMatch "O Level Chemistry" = None.
Proof. repeat split. Qed.

(** Pressing Start with a board, a course and a topic: the session starts
    with the course's grade, the board and course as its course name, and
    the first quiz is requested as easy. *)
Example start_requests_an_easy_quiz :
  let w := fireAll (scripted []) (fillForm ++ [Start]) initialWorld in
  option_map gradeLevel (session (state w)) = Some "IX"
  /\ option_map courseName (session (state w))
     = Some "Punjab: Grade IX Mathematics"
  /\ requests w
     = [AssessmentPrompt "IX" "Algebra"
          "Context: Punjab: Grade IX Mathematics (National Curriculum)." easy].
Proof. vm_compute. repeat split. Qed.

(** ** The service functions *)

(** Symbolic execution of a handler: unfold the monad, then split on what
    the service answers and on what the conversions of JavaScript values
    give. *)
Ltac unfold_monad :=
  unfold try_catch, bind, lift, throw, ret, logAgent, dispatch,
    setCurrentQuestion, setCurrentContent, console_error, download,
    JSON_parse, generateContent in *.

Ltac exec1 :=
  match goal with
  | |- context [match Js.toStr ?v with _ => _ end] =>
      destruct (Js.toStr v) eqn:?
  | |- context [match Js.get ?v ?k with _ => _ end] =>
      destruct (Js.get v k) eqn:?
  | |- context [match Js.substring0 ?n ?v with _ => _ end] =>
      destruct (Js.substring0 n v) eqn:?
  | |- context [match Js.toUpperCase ?v with _ => _ end] =>
      destruct (Js.toUpperCase v) eqn:?
  | |- context [match ?service ?n with Rejected => _ | Resolved _ => _ end] =>
      destruct (service n) as [|[| |?]] eqn:?
  | |- context [if Js.truthy ?v then _ else _] =>
      destruct (Js.truthy v) eqn:?
  | |- context [if negb (Js.truthy ?v) then _ else _] =>
      destruct (Js.truthy v) eqn:?
  | |- context [if Js.strict_eq ?a ?b then _ else _] =>
      destruct (Js.strict_eq a b) eqn:?
  end.

Ltac exec := repeat (cbn || exec1).

(** C4.  [generateAssessment] asks for the difficulty its thresholds give:
    hard exactly when the previous mastery is above 70, medium exactly when
    it is above 40 and at most 70, easy exactly when it is at most 40 (so
    medium at 70, easy at 40 and at 0). *)
Theorem generateAssessment_difficulty (service : nat -> reply)
    (topic grade : string) (previousMastery : Z)
    (courseContext : option string) (w : World) :
  exists contextStr difficulty,
    requests (snd (generateAssessment service (JString topic) grade
                     previousMastery courseContext w))
    = requests w ++ [AssessmentPrompt grade topic contextStr difficulty]
    /\ (difficulty = hard <-> previousMastery > 70)
    /\ (difficulty = medium <-> 40 < previousMastery <= 70)
    /\ (difficulty = easy <-> previousMastery <= 40).
Proof.
  unfold generateAssessment. unfold_monad.
  do 2 eexists. split.
  - cbn. destruct (service _) as [|[| |v]]; reflexivity.
  - destruct (Z.gtb_spec previousMastery 70) as [H70|H70];
      [| destruct (Z.gtb_spec previousMastery 40) as [H40|H40]];
      repeat split; intros; try discriminate; try lia.
Qed.

(** Scenario A: the first quiz of a session is asked at mastery 0, hence
    easy. *)
Example first_quiz_is_easy :
  requests (snd (generateAssessment (scripted []) (JString "Algebra") "9" 0
                   None initialWorld))
  = [AssessmentPrompt "9" "Algebra" "" easy].
Proof. reflexivity. Qed.

(** C8.  When the service answers the safety request with no text,
    [safetyCheck] returns [{safe: true}]: it neither throws nor reports the
    content as unsafe. *)
Theorem safetyCheck_fails_open (service : nat -> reply) (content : string)
    (w : World) :
  service (List.length (requests w)) = Resolved NoText ->
  fst (safetyCheck service (JString content) w)
  = Ok (JObject [("safe", JBool true)]).
Proof.
  intros Hreply. unfold safetyCheck. unfold_monad. cbn.
  rewrite Hreply. reflexivity.
Qed.

Lemma safetyCheck_fails_open_witness :
  scripted [Resolved NoText] (List.length (requests initialWorld))
  = Resolved NoText
  /\ fst (safetyCheck (scripted [Resolved NoText])
            (JString "Plants make food.") initialWorld)
     = Ok (JObject [("safe", JBool true)]).
Proof.
  split; [reflexivity|].
  apply (safetyCheck_fails_open (scripted [Resolved NoText])). reflexivity.
Defined.

(** C6, as the code has it.  [generateAssessment], [adaptPath],
    [curateContent] and [bridgeLanguage] throw [EmptyResponse] when the
    reply has no text and [MalformedResponse] when the text is not JSON; a
    text that parses is returned as parsed, with no check of its fields.
    [safetyCheck] does the same except that no text gives [{safe: true}]. *)
Theorem service_functions_parse_only (service : nat -> reply) (w : World)
    (topic grade focus title body : string) (mastery : Z)
    (courseContext : option string) (lastCorrect : bool)
    (others : list (string * jsval)) :
  let r := service (List.length (requests w)) in
  fst (generateAssessment service (JString topic) grade mastery courseContext w)
  = parsedOnly r
  /\ fst (adaptPath service lastCorrect mastery (JString topic) w)
     = parsedOnly r
  /\ fst (curateContent service (JString topic) grade (JString focus)
            courseContext w)
     = parsedOnly r
  /\ fst (bridgeLanguage service
            (JObject (("title", JString title) :: ("content", JString body)
                      :: others)) w)
     = parsedOnly r
  /\ fst (safetyCheck service (JString body) w)
     = match r with
       | Resolved NoText => Ok (JObject [("safe", JBool true)])
       | _ => parsedOnly r
       end.
Proof.
  unfold generateAssessment, adaptPath, curateContent, bridgeLanguage,
    safetyCheck.
  unfold_monad. cbn.
  destruct (service (List.length (requests w))) as [|[| |v]];
    repeat split; reflexivity.
Qed.

(** A question with every required field missing, one with three options
    and a correct index outside them, and a decision without [nextAction]
    are returned to the caller; an empty reply to the safety request is
    not an error. *)
Lemma malformed_shapes_are_accepted :
  let threeOptions :=
    JObject [("questionText", JString "2 + 2 = ?");
             ("options", JArray [JString "3"; JString "4"; JString "5"]);
             ("correctOptionIndex", JNumber 7);
             ("explanation", JNumber 0);
             ("difficulty", JString "easy");
             ("topic", JString "Algebra")] in
  let decision := JObject [("reasoning", JString "needs practice")] in
  fst (generateAssessment (scripted [Resolved (Json (JObject []))])
         (JString "Algebra") "9" 0 None initialWorld)
  = Ok (JObject [])
  /\ fst (generateAssessment (scripted [Resolved (Json threeOptions)])
            (JString "Algebra") "9" 0 None initialWorld)
     = Ok threeOptions
  /\ fst (adaptPath (scripted [Resolved (Json decision)]) true 20
            (JString "Algebra") initialWorld)
     = Ok decision
  /\ Js.get decision "nextAction" = Ok JUndefined
  /\ fst (safetyCheck (scripted [Resolved NoText]) (JString "Plants make food.")
            initialWorld)
     = Ok (JObject [("safe", JBool true)]).
Proof. cbv zeta. repeat split; reflexivity. Qed.

(** ** The three cycles *)

Lemma get_not_null (v x : jsval) (k : string) :
  Js.get v k = Ok x -> v <> JNull.
Proof. intros H ->. discriminate H. Qed.

(** [runAssessmentCycle] never throws and ends with the loading flag
    cleared.  Either a question came back, it is not [null], it is now the
    current question and the step is [assessing]; or an error was printed,
    a [System]/[Error] entry logged, and question and step are as before.
    The current material is never touched. *)
Lemma runAssessmentCycle_spec (service : nat -> reply) (topic : jsval)
    (grade : string) (mastery : Z) (courseContext : option string) (w : World) :
  let out := runAssessmentCycle service topic grade mastery courseContext w in
  let w' := snd out in
  fst out = Ok tt
  /\ untouched w w'
  /\ currentContent w' = currentContent w
  /\ isLoading (state w') = false
  /\ ((exists k, service k = Resolved (Json (currentQuestion w')))
      /\ currentQuestion w' <> JNull
      /\ console w' = console w
      /\ currentStep (state w') = assessing
      /\ logs (state w') =
           logs (state w) ++ [logged ASSESSMENT "Generating Quiz";
                              logged ASSESSMENT "Quiz Ready"]
      \/
      (exists e, console w' = console w ++ [e])
      /\ currentQuestion w' = currentQuestion w
      /\ currentStep (state w') = currentStep (state w)
      /\ logs (state w') =
           logs (state w) ++ [logged ASSESSMENT "Generating Quiz";
                              logged SYSTEM "Error"]).
Proof.
  unfold runAssessmentCycle, generateAssessment, untouched, logged.
  unfold_monad. cbv zeta. exec.
  all: repeat split; try reflexivity.
  all: try (right; repeat split;
            [eexists; reflexivity | now rewrite <- app_assoc]).
  left. repeat split.
  - eexists; eassumption.
  - eapply get_not_null; eassumption.
  - now rewrite <- app_assoc.
Qed.

(** [runContentCycle] never throws and ends with the loading flag cleared.
    Either the three calls went through, the value the last one returned is
    now the current material and the step is [learning]; or an error was
    printed and material and step are as before.  The current question is
    never touched. *)
Lemma runContentCycle_spec (service : nat -> reply) (topic : jsval)
    (grade : string) (focus : jsval) (courseContext : string) (w : World) :
  let out := runContentCycle service topic grade focus courseContext w in
  let w' := snd out in
  fst out = Ok tt
  /\ untouched w w'
  /\ currentQuestion w' = currentQuestion w
  /\ isLoading (state w') = false
  /\ ((exists k, service k = Resolved (Json (currentContent w')))
      /\ console w' = console w
      /\ currentStep (state w') = learning
      \/
      (exists e, console w' = console w ++ [e])
      /\ currentContent w' = currentContent w
      /\ currentStep (state w') = currentStep (state w)).
Proof.
  unfold runContentCycle, curateContent, safetyCheck, bridgeLanguage,
    untouched.
  unfold_monad. cbv zeta. exec.
  all: repeat split; try reflexivity.
  all: try (right; repeat split; eexists; reflexivity).
  all: left; repeat split; eexists; eassumption.
Qed.

Arguments runAssessmentCycle : simpl never.
Arguments runContentCycle : simpl never.

(** Use the specification of a cycle where the goal runs it. *)
Ltac use_cycle H :=
  match goal with
  | |- context [runAssessmentCycle ?s ?t ?g ?m ?c ?w] =>
      pose proof (runAssessmentCycle_spec s t g m c w) as H;
      cbv zeta in H;
      destruct (runAssessmentCycle s t g m c w) as [? ?];
      cbn [fst snd] in H
  | |- context [runContentCycle ?s ?t ?g ?f ?c ?w] =>
      pose proof (runContentCycle_spec s t g f c w) as H;
      cbv zeta in H;
      destruct (runContentCycle s t g f c w) as [? ?];
      cbn [fst snd] in H
  end.

(** [runAdaptationCycle] never throws, clears the current question first
    and ends with the loading flag cleared.  Then either a new question is
    current (step [assessing], material as before), or the material the
    service localized is current (step [learning], no question), or at
    least one error was printed, no question is current, and material and
    step are as before. *)
Lemma runAdaptationCycle_spec (service : nat -> reply) (rendered : World)
    (lastCorrect : bool) (mastery : Z) (topic : jsval) (courseContext : string)
    (w : World) :
  let out :=
    runAdaptationCycle service rendered lastCorrect mastery topic
      courseContext w in
  let w' := snd out in
  fst out = Ok tt
  /\ untouched w w'
  /\ isLoading (state w') = false
  /\ ((exists k, service k = Resolved (Json (currentQuestion w')))
      /\ currentQuestion w' <> JNull
      /\ currentContent w' = currentContent w
      /\ console w' = console w
      /\ currentStep (state w') = assessing
      \/
      (exists k, service k = Resolved (Json (currentContent w')))
      /\ currentQuestion w' = JNull
      /\ console w' = console w
      /\ currentStep (state w') = learning
      \/
      (exists e es, console w' = console w ++ e :: es)
      /\ currentQuestion w' = JNull
      /\ currentContent w' = currentContent w
      /\ currentStep (state w') = currentStep (state w)).
Proof.
  unfold runAdaptationCycle, adaptPath. unfold_monad. cbv zeta.
  exec.
  all: try (unfold untouched; cbn;
            repeat split; try reflexivity;
            right; right; repeat split; do 2 eexists; reflexivity).
  all: use_cycle H; cbn.
  all: first
    [ (* the decision is a quiz *)
      destruct H as (-> & Hu & Hc & Hl
                     & [(Hk & Hq & Hcon & Hs & _)|([err Herr] & Hq & Hs & _)]);
      cbn in *; (split; [reflexivity|]); (split; [exact Hu|]);
      (split; [exact Hl|]);
      [ left; repeat split; assumption
      | right; right; repeat split; try assumption; exists err, []; exact Herr ]
    | (* the decision is anything else *)
      destruct H as (-> & Hu & Hq & Hl
                     & [(Hk & Hcon & Hs)|([err Herr] & Hc & Hs)]);
      cbn in *; (split; [reflexivity|]); (split; [exact Hu|]);
      (split; [exact Hl|]);
      [ right; left; repeat split; assumption
      | right; right; repeat split; try assumption; exists err, []; exact Herr ] ].
Qed.

Arguments runAdaptationCycle : simpl never.

Ltac use_adaptation H :=
  match goal with
  | |- context [runAdaptationCycle ?s ?r ?l ?m ?t ?c ?w] =>
      pose proof (runAdaptationCycle_spec s r l m t c w) as H;
      cbv zeta in H;
      destruct (runAdaptationCycle s r l m t c w) as [? ?];
      cbn [fst snd] in H
  end.

(** ** Recording an answer *)

(** C1.  When the user answers the current question of a session whose
    mastery [m] is between 0 and 100, the session's mastery after the
    transition is [min 100 (m + 20)] if the chosen index is strictly equal
    to the question's [correctOptionIndex], and [max 0 (m - 10)] otherwise;
    either way it is between 0 and 100. *)
Theorem answer_updates_mastery (service : nat -> reply) (w : World)
    (index : Z) (s : LearningSession) (correct : jsval) :
  session (state w) = Some s ->
  Js.truthy (currentQuestion w) = true ->
  Js.get (currentQuestion w) "correctOptionIndex" = Ok correct ->
  0 <= masteryScore s <= 100 ->
  let after :=
    if Js.strict_eq (JNumber index) correct
    then Z.min 100 (masteryScore s + 20)
    else Z.max 0 (masteryScore s - 10) in
  (exists s',
      session (state (fire service (Answer index) w)) = Some s'
      /\ masteryScore s' = after)
  /\ 0 <= after <= 100.
Proof.
  intros Hs Hq Hc Hm after. split.
  - unfold fire, run, handleAnswer. rewrite Hs, Hq, Hc.
    unfold_monad. cbn. rewrite Hs.
    destruct (Js.get (currentQuestion w) "topic") as [t|e] eqn:Ht.
    + use_adaptation H. cbn.
      destruct H as (_ & (Hsession & _) & _). cbn in Hsession.
      rewrite Hsession. eexists. split; [reflexivity|]. reflexivity.
    + cbn. eexists. split; [reflexivity|]. reflexivity.
  - subst after. destruct (Js.strict_eq (JNumber index) correct); lia.
Qed.

Lemma answer_updates_mastery_witness :
  (exists s',
      session (state (fire (scripted []) (Answer 1)
                        (assessingAt 90 (sampleQuestion 1)))) = Some s'
      /\ masteryScore s' = 100)
  /\ 0 <= 100 <= 100.
Proof.
  apply (answer_updates_mastery (scripted []) (assessingAt 90 (sampleQuestion 1))
           1
           {| topic := "Algebra";
              courseName := "Punjab: Grade IX Mathematics";
              gradeLevel := "IX"; masteryScore := 90; history := [] |}
           (JNumber 1)).
  - reflexivity.
  - reflexivity.
  - reflexivity.
  - simpl. lia.
Defined.

(** Scenario B: one correct answer from mastery 0 gives 20, a further
    incorrect answer gives 10. *)
Example mastery_after_right_then_wrong :
  let q := JObject [("correctOptionIndex", JNumber 1)] in
  let fresh := appReducer initialState (START_SESSION "Algebra" "9" "Board: Grade 9") in
  let once := appReducer fresh (RECORD_ANSWER q true) in
  let twice := appReducer once (RECORD_ANSWER q false) in
  option_map masteryScore (session fresh) = Some 0
  /\ option_map masteryScore (session once) = Some 20
  /\ option_map masteryScore (session twice) = Some 10.
Proof. repeat split. Qed.

(** ** The three transitions *)

Lemma app_cons_not_self {A} (l : list A) (x : A) (rest : list A) :
  l ++ x :: rest <> l.
Proof.
  intros H. apply (f_equal (@List.length A)) in H.
  rewrite length_app in H. simpl in H. lia.
Qed.

Lemma truthy_get (v : jsval) (k : string) :
  Js.truthy v = true -> exists x, Js.get v k = Ok x.
Proof.
  destruct v; try discriminate; intros _; simpl; try (eexists; reflexivity).
  destruct (Js.lookup k fields); eexists; reflexivity.
Qed.

(** Pressing Start.  With a blank topic or no course nothing happens.
    Otherwise a fresh session begins (mastery 0, empty history, trace log
    emptied first), the step is [assessing], and the first assessment
    cycle runs. *)
Lemma fire_Start_spec (service : nat -> reply) (w : World) :
  let w' := fire service Start w in
  w' = w
  \/
  (exists s,
      session (state w') = Some s
      /\ topic s = topicInput w
      /\ masteryScore s = 0
      /\ history s = [])
  /\ currentContent w' = currentContent w
  /\ isLoading (state w') = false
  /\ currentStep (state w') = assessing
  /\ downloads w' = downloads w
  /\ ((exists k, service k = Resolved (Json (currentQuestion w')))
      /\ currentQuestion w' <> JNull
      /\ console w' = console w
      /\ logs (state w') = [logged SYSTEM "Initialization";
                            logged ASSESSMENT "Generating Quiz";
                            logged ASSESSMENT "Quiz Ready"]
      \/
      (exists e, console w' = console w ++ [e])
      /\ currentQuestion w' = currentQuestion w
      /\ logs (state w') = [logged SYSTEM "Initialization";
                            logged ASSESSMENT "Generating Quiz";
                            logged SYSTEM "Error"]).
Proof.
  cbv zeta. unfold fire, run, handleStart.
  destruct (Js.blank (topicInput w) || String.eqb (selectedCourse w) "");
    [left; reflexivity | right].
  unfold_monad. cbn. use_cycle H. cbn.
  destruct H as (_ & Hu & Hc & Hl & Hcases).
  destruct Hu as (Hsession & _ & _ & _ & _ & _ & Hd). cbn in *.
  split; [eexists; split; [exact Hsession | repeat split] |].
  repeat (split; [assumption || idtac|]).
  - destruct Hcases as [(_ & _ & _ & Hs & _)|(_ & _ & Hs & _)]; exact Hs.
  - destruct Hcases as [(Hk & Hq & Hcon & _ & Hlogs)|(He & Hq & _ & Hlogs)];
      [left | right]; repeat split; assumption.
Qed.

(** Answering the current question of a session.  The answer is recorded
    (mastery updated, one quiz entry appended to the history), and the
    adaptation cycle runs: afterwards a new question is current, or the
    localized material is, or an error was printed and neither is. *)
Lemma fire_Answer_spec (service : nat -> reply) (w : World) (index : Z)
    (s : LearningSession) :
  session (state w) = Some s ->
  Js.truthy (currentQuestion w) = true ->
  let w' := fire service (Answer index) w in
  (exists s' (correct : bool),
      session (state w') = Some s'
      /\ masteryScore s' =
           (if correct then Z.min 100 (masteryScore s + 20)
            else Z.max 0 (masteryScore s - 10))
      /\ history s' =
           history s ++ [ {| type := quiz; data := currentQuestion w;
                             userResponse := None;
                             isCorrect := Some correct |} ])
  /\ isLoading (state w') = false
  /\ downloads w' = downloads w
  /\ ((exists k, service k = Resolved (Json (currentQuestion w')))
      /\ currentQuestion w' <> JNull
      /\ currentContent w' = currentContent w
      /\ console w' = console w
      /\ currentStep (state w') = assessing
      \/
      (exists k, service k = Resolved (Json (currentContent w')))
      /\ currentQuestion w' = JNull
      /\ console w' = console w
      /\ currentStep (state w') = learning
      \/
      (exists e es, console w' = console w ++ e :: es)
      /\ currentQuestion w' = JNull
      /\ currentContent w' = currentContent w
      /\ currentStep (state w') = currentStep (state w)).
Proof.
  intros Hs Hq. cbv zeta. unfold fire, run, handleAnswer. rewrite Hs, Hq.
  destruct (truthy_get _ "correctOptionIndex" Hq) as [c Hc].
  destruct (truthy_get _ "topic" Hq) as [t Ht].
  rewrite Hc. unfold_monad. cbn. rewrite Hs, Ht. cbn.
  use_adaptation H. cbn.
  destruct H as (_ & Hu & Hl & Hcases).
  destruct Hu as (Hsession & _ & _ & _ & _ & _ & Hd). cbn in *.
  split; [do 2 eexists; split; [exact Hsession | split; reflexivity] |].
  repeat (split; [assumption|]). exact Hcases.
Qed.

(** Continuing from the material shown.  The material is dropped and an
    assessment cycle runs at the session's topic, grade and mastery. *)
Lemma fire_Continue_spec (service : nat -> reply) (w : World)
    (s : LearningSession) :
  session (state w) = Some s ->
  let w' := fire service Continue w in
  session (state w') = Some s
  /\ currentContent w' = JNull
  /\ isLoading (state w') = false
  /\ downloads w' = downloads w
  /\ ((exists k, service k = Resolved (Json (currentQuestion w')))
      /\ currentQuestion w' <> JNull
      /\ console w' = console w
      /\ currentStep (state w') = assessing
      \/
      (exists e, console w' = console w ++ [e])
      /\ currentQuestion w' = currentQuestion w
      /\ currentStep (state w') = currentStep (state w)).
Proof.
  intros Hs. cbv zeta. unfold fire, run, handleContentNext. rewrite Hs.
  unfold_monad. cbn. use_cycle H. cbn.
  destruct H as (_ & Hu & Hc & Hl & Hcases).
  destruct Hu as (Hsession & _ & _ & _ & _ & _ & Hd). cbn in *.
  rewrite Hsession, Hs.
  repeat (split; [assumption || reflexivity|]).
  destruct Hcases as [(Hk & Hq & Hcon & Hstep & _)|(He & Hq & Hstep & _)];
    [left | right]; repeat split; assumption.
Qed.

(** ** What holds between two transitions *)

Lemma settled_initial : settled initialWorld.
Proof.
  repeat split; auto; try discriminate.
Qed.

Lemma quizShown_inv (w : World) :
  quizShown w = true ->
  currentStep (state w) = assessing /\ Js.truthy (currentQuestion w) = true.
Proof.
  unfold quizShown. intros H.
  apply andb_prop in H as [H Hq]. apply andb_prop in H as [_ Hs].
  split; [|exact Hq]. destruct (currentStep (state w)); now try discriminate.
Qed.

Lemma contentShown_inv (w : World) :
  contentShown w = true ->
  currentStep (state w) = learning /\ Js.truthy (currentContent w) = true.
Proof.
  unfold contentShown. intros H.
  apply andb_prop in H as [H Hq]. apply andb_prop in H as [_ Hs].
  split; [|exact Hq]. destruct (currentStep (state w)); now try discriminate.
Qed.

Lemma formShown_inv (w : World) :
  formShown w = true -> currentStep (state w) = idle.
Proof.
  unfold formShown. destruct (currentStep (state w)); now try discriminate.
Qed.

Ltac same_session :=
  match goal with H : Some _ = Some _ |- _ => injection H as <- end.

Lemma settled_fire (service : nat -> reply) (w : World) (ev : event) :
  settled w -> enabled w ev = true -> settled (fire service ev w).
Proof.
  intros Hw Hen. pose proof Hw as (Hidle & Hone & Hsess & Hload & Hhist).
  destruct ev; cbn in Hen.
  - (* EditTopic *) exact Hw.
  - (* SelectSource *) exact Hw.
  - (* SelectCourse *) exact Hw.
  - (* Start *)
    apply andb_prop in Hen as [Hen _]. apply andb_prop in Hen as [Hform _].
    apply formShown_inv in Hform. destruct (Hidle Hform) as (Hq & Hc & _).
    destruct (fire_Start_spec service w) as [->|H]; [exact Hw|].
    destruct H as ((s & Hs & _ & Hm & Hh) & Hc' & Hl & Hstep & _ & _).
    unfold settled. rewrite Hstep, Hs, Hc', Hc, Hl.
    repeat split; auto; try discriminate.
    all: same_session; rewrite ?Hm, ?Hh; try constructor; lia.
  - (* Answer *)
    apply andb_prop in Hen as [Hshown _].
    apply quizShown_inv in Hshown as [Hstep Hq].
    destruct (session (state w)) as [s|] eqn:Hs;
      [| exfalso; apply Hsess; [rewrite Hstep; discriminate | reflexivity]].
    destruct Hone as [Hnull|Hc];
      [rewrite Hnull in Hq; discriminate|].
    destruct (Hhist s eq_refl) as [Hm Hquiz].
    destruct (fire_Answer_spec service w index s Hs Hq)
      as ((s' & correct & Hs' & Hm' & Hh') & Hl & _ & Hcases).
    assert (Hstep' : currentStep (state (fire service (Answer index) w)) <> idle).
    { destruct Hcases as [(_ & _ & _ & _ & E)|[(_ & _ & _ & E)|(_ & _ & _ & E)]];
        rewrite E, ?Hstep; discriminate. }
    unfold settled. rewrite Hs', Hl.
    split; [intros E; now elim Hstep'|].
    split.
    { destruct Hcases as [(_ & _ & E & _)|[(_ & E & _)|(_ & E & _)]];
        [right; congruence | left; exact E | left; exact E]. }
    split; [discriminate|]. split; [reflexivity|].
    intros s'' E. same_session. rewrite Hm', Hh'. split.
    + destruct correct; lia.
    + apply Forall_app. split; [exact Hquiz|].
      constructor; [reflexivity | constructor].
  - (* Continue *)
    apply contentShown_inv in Hen as [Hstep Hc].
    destruct (session (state w)) as [s|] eqn:Hs;
      [| exfalso; apply Hsess; [rewrite Hstep; discriminate | reflexivity]].
    destruct (fire_Continue_spec service w s Hs)
      as (Hs' & Hc' & Hl & _ & Hcases).
    assert (Hstep' : currentStep (state (fire service Continue w)) <> idle).
    { destruct Hcases as [(_ & _ & _ & E)|(_ & _ & E)];
        rewrite E, ?Hstep; discriminate. }
    unfold settled. rewrite Hs', Hl, Hc'.
    split; [intros E; now elim Hstep'|].
    split; [right; reflexivity|].
    split; [discriminate|]. split; [reflexivity|].
    intros s'' E. same_session. now apply Hhist.
  - (* ToggleBandwidth *) exact Hw.
  - (* Export *)
    unfold fire, run, downloadPack.
    destruct (session (state w)) as [s|] eqn:Hs; [|discriminate].
    unfold_monad. cbn. unfold settled. cbn. rewrite Hs.
    split; [intros E; destruct (Hidle E) as (_ & _ & Hn); congruence|].
    split; [exact Hone|].
    split; [discriminate|]. split; [exact Hload|].
    intros s'' E. same_session. now apply Hhist.
Qed.

Lemma reachable_settled (service : nat -> reply) (w : World) :
  reachable service w -> settled w.
Proof.
  induction 1 as [|w ev _ IH Hen].
  - exact settled_initial.
  - now apply settled_fire.
Qed.

Lemma reachable_fireAll (service : nat -> reply) (evs : list event) :
  forall w,
    reachable service w -> enabledAll service evs w = true ->
    reachable service (fireAll service evs w).
Proof.
  induction evs as [|ev rest IH]; intros w Hw Hen; [exact Hw|].
  simpl in Hen. apply andb_prop in Hen as [Hev Hrest].
  simpl. apply IH; [|exact Hrest]. now apply reachable_fire.
Qed.

(** ** Question and material *)






(** A topic of white space only leaves the Start button enabled, but
    [handleStart] returns at once: the start form stays and nothing is
    shown. *)
Example blank_topic_starts_nothing :
  let evs := [SelectSource "Punjab"; SelectCourse "Grade IX Mathematics";
              EditTopic " "; Start] in
  enabledAll (scripted []) evs initialWorld = true
  /\ currentStep (state (fireAll (scripted []) evs initialWorld)) = idle
  /\ session (state (fireAll (scripted []) evs initialWorld)) = None
  /\ requests (fireAll (scripted []) evs initialWorld) = [].
Proof. vm_compute. repeat split. Qed.

(** ** The safety check inside the content cycle *)



(** The same verdict with a [reason] that does not convert to text: an
    object with an own property [toString].  The cycle stops with a
    [TypeError] after the safety request; no [Blocked] entry is logged and
    nothing is localized. *)
Example unsafe_content_with_unprintable_reason :
  let verdict :=
    JObject [("safe", JBool false);
             ("reason", JObject [("toString", JNumber 1)])] in
  let service :=
    scripted [Resolved (Json (sampleMaterial "english"));
              Resolved (Json verdict);
              Resolved (Json (sampleMaterial "urdu_mix"))] in
  let w' :=
    snd (runContentCycle service (JString "Algebra") "IX" (JString "addition")
           "Punjab: Grade IX Mathematics" initialWorld) in
  console w' = [TypeError]
  /\ map requestAgent (requests w') = [CURATOR; SAFETY]
  /\ currentContent w' = JNull
  /\ map action (logs (state w'))
     = ["Sourcing Content"; "Content Found"; "Filtering"].
Proof. vm_compute. repeat split. Qed.


(** ** Scenarios where the code and its description part *)

(** The history is written by [RECORD_ANSWER] alone.  In a run where the
    first answer leads to the content cycle and a localized material is
    shown, the user continues, answers a second question and exports, the
    history holds the two quiz entries and no content entry, and so does
    the pack: showing a material is not an event of the history. *)
Example export_after_two_quizzes_and_a_material :
  let service :=
    scripted [Resolved (Json (sampleQuestion 1));
              Resolved (Json (sampleDecision "content"));
              Resolved (Json (sampleMaterial "english"));
              Resolved (Json (sampleVerdict true));
              Resolved (Json (sampleMaterial "urdu_mix"));
              Resolved (Json (sampleQuestion 0));
              Resolved (Json (sampleDecision "quiz"));
              Resolved (Json (sampleQuestion 2))] in
  let shown := fireAll service (fillForm ++ [Start; Answer 1]) initialWorld in
  let w :=
    fireAll service (fillForm ++ [Start; Answer 1; Continue; Answer 3; Export])
      initialWorld in
  reachable service w
  /\ contentShown shown = true
  /\ currentContent shown = sampleMaterial "urdu_mix"
  /\ option_map (fun s => map type (history s)) (session (state w))
     = Some [quiz; quiz]
  /\ map Pack.reviewQuizzes (downloads w)
     = [[sampleQuestion 1; sampleQuestion 0]]
  /\ map Pack.materials (downloads w) = [[]].
Proof.
  cbv zeta. split.
  - apply reachable_fireAll;
      [apply reachable_initial | vm_compute; reflexivity].
  - vm_compute. repeat split.
Qed.

(** C3, at the fourth answer of a session.  Two right answers and a wrong
    one bring the mastery to 30; the fourth answer is right, so the
    session's mastery becomes 50.  The adaptation request sent after it
    still says 30, and the question generated next is asked at 30, hence
    easy, where 50 would give medium. *)
Theorem adaptation_sees_mastery_before_the_answer :
  let service :=
    scripted [Resolved (Json (sampleQuestion 0));
              Resolved (Json (sampleDecision "quiz"));
              Resolved (Json (sampleQuestion 0));
              Resolved (Json (sampleDecision "quiz"));
              Resolved (Json (sampleQuestion 0));
              Resolved (Json (sampleDecision "quiz"));
              Resolved (Json (sampleQuestion 0));
              Resolved (Json (sampleDecision "quiz"));
              Resolved (Json (sampleQuestion 0))] in
  let before :=
    fireAll service (fillForm ++ [Start; Answer 0; Answer 0; Answer 1])
      initialWorld in
  let after := fire service (Answer 0) before in
  enabledAll service (fillForm ++ [Start; Answer 0; Answer 0; Answer 1; Answer 0])
    initialWorld = true
  /\ option_map masteryScore (session (state before)) = Some 30
  /\ option_map masteryScore (session (state after)) = Some 50
  /\ skipn (List.length (requests before)) (requests after)
     = [AdaptationPrompt "Algebra" true 30;
        AssessmentPrompt "IX" "Algebra"
          "Context: Punjab: Grade IX Mathematics (National Curriculum)." easy]
  /\ (exists c,
         requests (snd (generateAssessment service (JString "Algebra") "IX" 50
                          (Some "Punjab: Grade IX Mathematics") after))
         = requests after ++ [AssessmentPrompt "IX" "Algebra" c medium]).
Proof.
  cbv zeta. vm_compute. repeat split. eexists. reflexivity.
Qed.

(** C5, at a failing adaptation call, a failing curation call and a
    failing quiz generation.  In all three the loading flag ends cleared
    and the session is the one from before the failing call.  Only the
    failing quiz generation logs a [System]/[Error] entry; after the
    failing adaptation call and after the failing curation call the trace
    has none. *)
Theorem only_the_assessment_cycle_logs_its_error :
  let adaptationFails :=
    scripted [Resolved (Json (sampleQuestion 1)); Resolved NoText] in
  let curationFails :=
    scripted [Resolved (Json (sampleQuestion 1));
              Resolved (Json (sampleDecision "content"));
              Resolved Unparsable] in
  let generationFails :=
    scripted [Resolved (Json (sampleQuestion 1));
              Resolved (Json (sampleDecision "quiz"));
              Rejected] in
  let run service := fireAll service (fillForm ++ [Start; Answer 1]) initialWorld in
  let recorded :=
    Some {| topic := "Algebra";
            courseName := "Punjab: Grade IX Mathematics";
            gradeLevel := "IX";
            masteryScore := 20;
            history := [ {| type := quiz; data := sampleQuestion 1;
                            userResponse := None; isCorrect := Some true |} ] |} in
  (console (run adaptationFails) = [EmptyResponse]
   /\ isLoading (state (run adaptationFails)) = false
   /\ session (state (run adaptationFails)) = recorded
   /\ systemErrors (logs (state (run adaptationFails))) = 0%nat)
  /\ (console (run curationFails) = [MalformedResponse]
      /\ isLoading (state (run curationFails)) = false
      /\ session (state (run curationFails)) = recorded
      /\ systemErrors (logs (state (run curationFails))) = 0%nat)
  /\ (console (run generationFails) = [TransportFailure]
      /\ isLoading (state (run generationFails)) = false
      /\ session (state (run generationFails)) = recorded
      /\ systemErrors (logs (state (run generationFails))) = 1%nat).
Proof.
  cbv zeta. vm_compute. repeat split.
Qed.

(** ** Further properties of the session *)

(** X1.  The mastery score of a session is between 0 and 100 at every
    point the user can reach. *)
Theorem mastery_stays_in_range (service : nat -> reply) (w : World)
    (s : LearningSession) :
  reachable service w ->
  session (state w) = Some s ->
  0 <= masteryScore s <= 100.
Proof.
  intros Hreach Hs. apply reachable_settled in Hreach.
  destruct Hreach as (_ & _ & _ & _ & Hhist). now apply Hhist.
Qed.

Lemma mastery_stays_in_range_witness :
  reachable (scripted [Resolved (Json (sampleQuestion 1)); Rejected])
    (fireAll (scripted [Resolved (Json (sampleQuestion 1)); Rejected])
       (fillForm ++ [Start; Answer 1]) initialWorld)
  /\ 0 <= 20 <= 100.
Proof.
  assert (Hreach :
    reachable (scripted [Resolved (Json (sampleQuestion 1)); Rejected])
      (fireAll (scripted [Resolved (Json (sampleQuestion 1)); Rejected])
         (fillForm ++ [Start; Answer 1]) initialWorld)).
  { apply reachable_fireAll;
      [apply reachable_initial | vm_compute; reflexivity]. }
  split; [exact Hreach|].
  apply (mastery_stays_in_range _ _
           {| topic := "Algebra";
              courseName := "Punjab: Grade IX Mathematics";
              gradeLevel := "IX";
              masteryScore := 20;
              history := [ {| type := quiz; data := sampleQuestion 1;
                              userResponse := None;
                              isCorrect := Some true |} ] |}
           Hreach).
  vm_compute. reflexivity.
Defined.

(** X2.  The history of a session is append-only: whatever the user does
    next, the session is still there and its history is the old one
    followed by what the event added. *)
Theorem history_only_grows (service : nat -> reply) (w : World) (ev : event)
    (s : LearningSession) :
  reachable service w ->
  enabled w ev = true ->
  session (state w) = Some s ->
  exists s' added,
    session (state (fire service ev w)) = Some s'
    /\ history s' = history s ++ added.
Proof.
  intros Hreach Hen Hs. apply reachable_settled in Hreach.
  destruct Hreach as (Hidle & Hone & _ & _ & _).
  assert (Hsame : forall w', session (state w') = session (state w) ->
                             exists s' added,
                               session (state w') = Some s'
                               /\ history s' = history s ++ added).
  { intros w' E. exists s, []. rewrite E, Hs, app_nil_r. now split. }
  destruct ev; cbn in Hen; try (apply Hsame; reflexivity).
  - (* Start *)
    apply andb_prop in Hen as [Hen _]. apply andb_prop in Hen as [Hform _].
    apply formShown_inv in Hform. destruct (Hidle Hform) as (_ & _ & Hnone).
    congruence.
  - (* Answer *)
    apply andb_prop in Hen as [Hshown _].
    apply quizShown_inv in Hshown as [_ Hq].
    destruct (fire_Answer_spec service w index s Hs Hq)
      as ((s' & correct & Hs' & _ & Hh') & _).
    exists s'. eexists. split; [exact Hs' | exact Hh'].
  - (* Continue *)
    destruct (fire_Continue_spec service w s Hs) as (Hs' & _).
    apply Hsame. now rewrite Hs'.
  - (* Export *)
    apply Hsame. unfold fire, run, downloadPack. rewrite Hs.
    unfold_monad. cbn. exact Hs.
Qed.

Lemma history_only_grows_witness :
  let service := scripted [Resolved (Json (sampleQuestion 1)); Rejected] in
  let w := fireAll service (fillForm ++ [Start]) initialWorld in
  exists s' added,
    session (state (fire service (Answer 1) w)) = Some s'
    /\ history s' = [] ++ added.
Proof.
  cbv zeta.
  apply (history_only_grows
           (scripted [Resolved (Json (sampleQuestion 1)); Rejected])
           (fireAll (scripted [Resolved (Json (sampleQuestion 1)); Rejected])
              (fillForm ++ [Start]) initialWorld)
           (Answer 1)
           {| topic := "Algebra";
              courseName := "Punjab: Grade IX Mathematics";
              gradeLevel := "IX"; masteryScore := 0; history := [] |}).
  - apply reachable_fireAll;
      [apply reachable_initial | vm_compute; reflexivity].
  - vm_compute. reflexivity.
  - vm_compute. reflexivity.
Defined.

(** [START_SESSION] resets the session whatever the state was:
    mastery 0, empty history, empty trace log, step [assessing]. *)
Theorem start_session_resets (state : AppState) (topic grade courseName : string) :
  session (appReducer state (START_SESSION topic grade courseName))
  = Some {| topic := topic; courseName := courseName; gradeLevel := grade;
            masteryScore := 0; history := [] |}
  /\ logs (appReducer state (START_SESSION topic grade courseName)) = []
  /\ currentStep (appReducer state (START_SESSION topic grade courseName))
     = assessing.
Proof. repeat split. Qed.

(** X4.  Scenario C: a reply to the quiz request that is not JSON makes
    the assessment cycle print [MalformedResponse], log one
    [System]/[Error] entry after the entry of the request, and clear the
    loading flag; the session, the current question and the current
    material stay as they were. *)
Theorem unparsable_quiz_leaves_session (service : nat -> reply) (w : World)
    (topic grade : string) (mastery : Z) (courseContext : option string) :
  service (List.length (requests w)) = Resolved Unparsable ->
  let w' :=
    snd (runAssessmentCycle service (JString topic) grade mastery
           courseContext w) in
  console w' = console w ++ [MalformedResponse]
  /\ logs (state w') =
       logs (state w) ++ [logged ASSESSMENT "Generating Quiz";
                          logged SYSTEM "Error"]
  /\ isLoading (state w') = false
  /\ session (state w') = session (state w)
  /\ currentQuestion w' = currentQuestion w
  /\ currentContent w' = currentContent w.
Proof.
  intros Hreply. cbv zeta.
  unfold runAssessmentCycle, generateAssessment. unfold_monad. cbn.
  rewrite Hreply. cbn. rewrite <- app_assoc. repeat split.
Qed.

Lemma unparsable_quiz_leaves_session_witness :
  let w' :=
    snd (runAssessmentCycle (scripted [Resolved Unparsable]) (JString "Algebra")
           "IX" 0 None initialWorld) in
  console w' = console initialWorld ++ [MalformedResponse]
  /\ logs (state w') =
       logs (state initialWorld) ++ [logged ASSESSMENT "Generating Quiz";
                                     logged SYSTEM "Error"]
  /\ isLoading (state w') = false
  /\ session (state w') = session (state initialWorld)
  /\ currentQuestion w' = currentQuestion initialWorld
  /\ currentContent w' = currentContent initialWorld.
Proof.
  cbv zeta.
  apply (unparsable_quiz_leaves_session (scripted [Resolved Unparsable])
           initialWorld "Algebra" "IX" 0 None).
  vm_compute. reflexivity.
Defined.

(** *** The trace log *)

Ltac extends_logs :=
  first [ exists []; now rewrite app_nil_r
        | eexists; rewrite <- ?app_assoc; reflexivity ].

Lemma runAssessmentCycle_logs (service : nat -> reply) (topic : jsval)
    (grade : string) (mastery : Z) (courseContext : option string) (w : World) :
  exists added,
    logs (state (snd (runAssessmentCycle service topic grade mastery
                        courseContext w)))
    = logs (state w) ++ added.
Proof.
  destruct (runAssessmentCycle_spec service topic grade mastery courseContext w)
    as (_ & _ & _ & _ & [(_ & _ & _ & _ & E)|(_ & _ & _ & E)]);
    rewrite E; eexists; reflexivity.
Qed.

Lemma runContentCycle_logs (service : nat -> reply) (topic : jsval)
    (grade : string) (focus : jsval) (courseContext : string) (w : World) :
  exists added,
    logs (state (snd (runContentCycle service topic grade focus
                        courseContext w)))
    = logs (state w) ++ added.
Proof.
  unfold runContentCycle, curateContent, safetyCheck, bridgeLanguage.
  unfold_monad. exec. all: extends_logs.
Qed.

Lemma runAdaptationCycle_logs (service : nat -> reply) (rendered : World)
    (lastCorrect : bool) (mastery : Z) (topic : jsval) (courseContext : string)
    (w : World) :
  exists added,
    logs (state (snd (runAdaptationCycle service rendered lastCorrect mastery
                        topic courseContext w)))
    = logs (state w) ++ added.
Proof.
  unfold runAdaptationCycle, adaptPath. unfold_monad. exec.
  all: try extends_logs.
  all: match goal with
       | |- context [runAssessmentCycle ?s ?t ?g ?m ?c ?w1] =>
           destruct (runAssessmentCycle_logs s t g m c w1) as [added E];
           pose proof (runAssessmentCycle_spec s t g m c w1) as (Hok & _);
           destruct (runAssessmentCycle s t g m c w1) as [r w2]
       | |- context [runContentCycle ?s ?t ?g ?f ?c ?w1] =>
           destruct (runContentCycle_logs s t g f c w1) as [added E];
           pose proof (runContentCycle_spec s t g f c w1) as (Hok & _);
           destruct (runContentCycle s t g f c w1) as [r w2]
       end;
       cbn in *; subst r; cbn; rewrite E; extends_logs.
Qed.

(** X5.  Trace entries are never removed or reordered: after any event
    other than Start the trace log is the old one followed by the entries
    the event added. *)
Theorem trace_only_grows (service : nat -> reply) (w : World) (ev : event) :
  ev <> Start ->
  exists added,
    logs (state (fire service ev w)) = logs (state w) ++ added.
Proof.
  intros Hev. destruct ev; try congruence; unfold fire, run.
  - exists []. now rewrite app_nil_r.
  - exists []. now rewrite app_nil_r.
  - exists []. now rewrite app_nil_r.
  - (* Answer *)
    unfold handleAnswer.
    destruct (session (state w)) as [s|] eqn:Hs;
      [| exists []; now rewrite app_nil_r].
    destruct (Js.truthy (currentQuestion w));
      [| exists []; now rewrite app_nil_r].
    unfold_monad. cbn.
    destruct (Js.get (currentQuestion w) "correctOptionIndex"); cbn;
      [| exists []; now rewrite app_nil_r].
    rewrite Hs.
    destruct (Js.get (currentQuestion w) "topic"); cbn;
      [| extends_logs].
    match goal with
    | |- context [runAdaptationCycle ?s ?r ?l ?m ?t ?c ?w1] =>
        destruct (runAdaptationCycle_logs s r l m t c w1) as [added E]
    end.
    rewrite E. cbn. extends_logs.
  - (* Continue *)
    unfold handleContentNext. unfold_monad. cbn.
    destruct (session (state w)) as [s|]; cbn;
      [| exists []; now rewrite app_nil_r].
    match goal with
    | |- context [runAssessmentCycle ?s ?t ?g ?m ?c ?w1] =>
        destruct (runAssessmentCycle_logs s t g m c w1) as [added E]
    end.
    rewrite E. cbn. extends_logs.
  - (* ToggleBandwidth *) exists []. now rewrite app_nil_r.
  - (* Export *)
    unfold downloadPack.
    destruct (session (state w)); [| exists []; now rewrite app_nil_r].
    unfold_monad. cbn. extends_logs.
Qed.

Lemma trace_only_grows_witness :
  exists added,
    logs (state (fire (scripted [Rejected]) (Answer 1)
                   (assessingAt 0 (sampleQuestion 1))))
    = logs (state (assessingAt 0 (sampleQuestion 1))) ++ added.
Proof.
  apply (trace_only_grows (scripted [Rejected])
           (assessingAt 0 (sampleQuestion 1)) (Answer 1)).
  discriminate.
Defined.

(** X6.  A handler that passes its guard and runs to its end leaves the
    loading flag cleared, whatever the world it starts from (the flag may
    be set there) and whatever the service answers: Start with a topic
    that is not blank and a course chosen, an answer when there is a
    session and a truthy current question, Continue when there is a
    session.  Every path through the three cycles ends in a dispatch that
    clears the flag. *)
Theorem handlers_end_with_loading_cleared (service : nat -> reply)
    (w : World) :
  (Js.blank (topicInput w) = false ->
   selectedCourse w <> "" ->
   isLoading (state (fire service Start w)) = false)
  /\ (forall index,
         session (state w) <> None ->
         Js.truthy (currentQuestion w) = true ->
         isLoading (state (fire service (Answer index) w)) = false)
  /\ (session (state w) <> None ->
      isLoading (state (fire service Continue w)) = false).
Proof.
  split; [|split].
  - intros Hblank Hcourse.
    unfold fire, run, handleStart. rewrite Hblank.
    apply String.eqb_neq in Hcourse. rewrite Hcourse. cbn [orb].
    unfold_monad. cbn.
    match goal with
    | |- context [runAssessmentCycle ?s ?t ?g ?m ?c ?w1] =>
        pose proof (runAssessmentCycle_spec s t g m c w1) as Hspec
    end.
    cbv zeta in Hspec. now destruct Hspec as (_ & _ & _ & Hl & _).
  - intros index Hsess Hq.
    destruct (session (state w)) as [s|] eqn:Hs; [|now elim Hsess].
    now destruct (fire_Answer_spec service w index s Hs Hq) as (_ & Hl & _).
  - intros Hsess.
    destruct (session (state w)) as [s|] eqn:Hs; [|now elim Hsess].
    now destruct (fire_Continue_spec service w s Hs) as (_ & _ & Hl & _).
Qed.

(** In single flight nothing is loading between two events. *)
Lemma loading_cleared_between_transitions (service : nat -> reply)
    (w : World) :
  reachable service w -> isLoading (state w) = false.
Proof.
  intros Hreach. apply reachable_settled in Hreach.
  now destruct Hreach as (_ & _ & _ & Hload & _).
Qed.

Lemma loading_cleared_between_transitions_witness :
  isLoading
    (state (fireAll (scripted [Resolved (Json (sampleQuestion 1)); Rejected])
              (fillForm ++ [Start; Answer 1]) initialWorld))
  = false.
Proof.
  apply (loading_cleared_between_transitions
           (scripted [Resolved (Json (sampleQuestion 1)); Rejected])).
  apply reachable_fireAll;
    [apply reachable_initial | vm_compute; reflexivity].
Defined.

(** The pack [downloadPack] hands to the browser: course, grade and
    topic of the session, under [materials] the data of the history
    entries of type [content], under [reviewQuizzes] the data of those of
    type [quiz], both in the order of the history, and the trace log as
    it is when Export is pressed. *)
Theorem downloadPack_contents (service : nat -> reply) (w : World)
    (s : LearningSession) :
  session (state w) = Some s ->
  downloads (fire service Export w)
  = downloads w ++
      [ {| Pack.course := courseName s;
           Pack.studentLevel := gradeLevel s;
           Pack.topic := topic s;
           Pack.materials :=
             map data (filter (fun h => is_content (type h)) (history s));
           Pack.reviewQuizzes :=
             map data (filter (fun h => is_quiz (type h)) (history s));
           Pack.logs := logs (state w) |} ]
  /\ logs (state (fire service Export w))
     = logs (state w) ++ [logged SYSTEM "Offline Export"].
Proof.
  intros Hs. unfold fire, run, downloadPack. rewrite Hs.
  unfold_monad. cbn. split; reflexivity.
Qed.

Lemma downloadPack_contents_witness :
  map Pack.reviewQuizzes (downloads (fire (scripted []) Export mixedWorld))
  = [[sampleQuestion 1; sampleQuestion 0]]
  /\ map Pack.materials (downloads (fire (scripted []) Export mixedWorld))
     = [[sampleMaterial "urdu_mix"]].
Proof.
  destruct (downloadPack_contents (scripted []) mixedWorld mixedHistory eq_refl)
    as [E _].
  rewrite E. split; reflexivity.
Defined.

Lemma filter_map_length (t : EntryType) (entries : list HistoryEntry) :
  List.length
    (map data
       (filter (fun h => if EntryType_eq_dec (type h) t then true else false)
          entries))
  = entriesOfType t entries.
Proof.
  unfold entriesOfType. rewrite length_map.
  induction entries as [|h rest IH]; [reflexivity|].
  cbn [filter map count_occ].
  destruct (EntryType_eq_dec (type h) t); cbn [List.length]; now rewrite IH.
Qed.

(** C2.  Exporting a session hands over one pack whose [materials] are
    exactly the data of the history entries of type [content] and whose
    [reviewQuizzes] are exactly the data of those of type [quiz], both in
    the order of the history, with the whole trace log as it stands.  So
    [reviewQuizzes] is as long as the history has quiz entries and
    [materials] as long as it has content entries: 2 and 1 for a history
    of two quiz attempts and one content exposure. *)
Theorem export_filters_history_by_type (service : nat -> reply) (w : World)
    (s : LearningSession) :
  session (state w) = Some s ->
  exists pack,
    downloads (fire service Export w) = downloads w ++ [pack]
    /\ Pack.materials pack
       = map data (filter (fun h => is_content (type h)) (history s))
    /\ Pack.reviewQuizzes pack
       = map data (filter (fun h => is_quiz (type h)) (history s))
    /\ Pack.logs pack = logs (state w)
    /\ List.length (Pack.reviewQuizzes pack) = entriesOfType quiz (history s)
    /\ List.length (Pack.materials pack) = entriesOfType content (history s).
Proof.
  intros Hs. destruct (downloadPack_contents service w s Hs) as [Hpack _].
  eexists. split; [exact Hpack|]. cbn.
  repeat split.
  - rewrite <- filter_map_length. do 2 f_equal.
    apply filter_ext. intros h. now destruct (type h).
  - rewrite <- filter_map_length. do 2 f_equal.
    apply filter_ext. intros h. now destruct (type h).
Qed.

Lemma export_filters_history_by_type_witness :
  entriesOfType quiz (history mixedHistory) = 2%nat
  /\ entriesOfType content (history mixedHistory) = 1%nat
  /\ exists pack,
       downloads (fire (scripted []) Export mixedWorld)
       = downloads mixedWorld ++ [pack]
       /\ List.length (Pack.reviewQuizzes pack) = 2%nat
       /\ List.length (Pack.materials pack) = 1%nat
       /\ Pack.logs pack = logs (state mixedWorld).
Proof.
  split; [reflexivity | split; [reflexivity|]].
  destruct (export_filters_history_by_type (scripted []) mixedWorld
              mixedHistory eq_refl)
    as (pack & Hpack & _ & _ & Hlogs & Hquizzes & Hmaterials).
  exists pack. repeat split; assumption.
Defined.

(** X8.  No cycle commits anything to the session: after the assessment,
    the content and the adaptation cycle, failed or not, the session is
    the one the cycle started from. *)
Theorem cycles_leave_session (service : nat -> reply) (rendered w : World)
    (topic focus : jsval) (grade courseContext : string) (mastery : Z)
    (lastCorrect : bool) :
  session (state (snd (runAssessmentCycle service topic grade mastery
                         (Some courseContext) w)))
  = session (state w)
  /\ session (state (snd (runContentCycle service topic grade focus
                            courseContext w)))
     = session (state w)
  /\ session (state (snd (runAdaptationCycle service rendered lastCorrect
                            mastery topic courseContext w)))
     = session (state w).
Proof.
  destruct (runAssessmentCycle_spec service topic grade mastery
              (Some courseContext) w) as (_ & (H1 & _) & _).
  destruct (runContentCycle_spec service topic grade focus courseContext w)
    as (_ & (H2 & _) & _).
  destruct (runAdaptationCycle_spec service rendered lastCorrect mastery topic
              courseContext w) as (_ & (H3 & _) & _).
  repeat split; assumption.
Qed.

(** ** Requests, guards and views *)

(** *** The requests of a transition *)

(** The assessment cycle sends one request when the topic converts to
    text, whatever the service answers, and none otherwise. *)
Lemma runAssessmentCycle_requests (service : nat -> reply) (topic : jsval)
    (grade : string) (mastery : Z) (courseContext : option string) (w : World) :
  let w' :=
    snd (runAssessmentCycle service topic grade mastery courseContext w) in
  match Js.toStr topic with
  | Ok text =>
      exists contextStr,
        requests w' =
          requests w ++ [AssessmentPrompt grade text contextStr
                           (difficultyOf mastery)]
  | Throw _ => requests w' = requests w
  end.
Proof.
  cbv zeta. unfold runAssessmentCycle, generateAssessment, difficultyOf.
  unfold_monad. destruct (Js.toStr topic) as [text|e] eqn:Htopic; cbn.
  - eexists. exec; reflexivity.
  - reflexivity.
Qed.

(** The content cycle sends its requests in the order curator, safety,
    language and stops at the first that fails. *)
Lemma runContentCycle_requests (service : nat -> reply) (topic : jsval)
    (grade : string) (focus : jsval) (courseContext : string) (w : World) :
  let w' := snd (runContentCycle service topic grade focus courseContext w) in
  exists added k,
    requests w' = requests w ++ added
    /\ map requestAgent added = firstn k [CURATOR; SAFETY; LANGUAGE]
    /\ (console w' = console w -> k = 3%nat)
    /\ (currentContent w' <> currentContent w -> k = 3%nat).
Proof.
  cbv zeta.
  unfold runContentCycle, curateContent, safetyCheck, bridgeLanguage.
  unfold_monad. exec.
  all: first
    [ exists [], 0%nat; rewrite app_nil_r; repeat split; cbn;
      intros H; try (now apply app_cons_not_self in H); now elim H
    | eexists; exists 1%nat; rewrite <- ?app_assoc; repeat split; cbn;
      intros H; try (now apply app_cons_not_self in H); now elim H
    | eexists; exists 2%nat; rewrite <- ?app_assoc; repeat split; cbn;
      intros H; try (now apply app_cons_not_self in H); now elim H
    | eexists; exists 3%nat; rewrite <- ?app_assoc; repeat split ].
Qed.

(** The adaptation cycle sends the adaptation request first, then either
    the one request of the assessment cycle or the requests of the content
    cycle: at most four in all, none of them twice. *)
Lemma runAdaptationCycle_requests (service : nat -> reply) (rendered : World)
    (lastCorrect : bool) (mastery : Z) (topic : jsval) (courseContext : string)
    (w : World) :
  let w' :=
    snd (runAdaptationCycle service rendered lastCorrect mastery topic
           courseContext w) in
  exists added,
    requests w' = requests w ++ added
    /\ (map requestAgent added = []
        \/ map requestAgent added = [ADAPTATION; ASSESSMENT]
        \/ exists k,
             map requestAgent added
             = ADAPTATION :: firstn k [CURATOR; SAFETY; LANGUAGE]).
Proof.
  cbv zeta. unfold runAdaptationCycle, adaptPath. unfold_monad. exec.
  all: try (exists []; rewrite app_nil_r; split; [reflexivity | now left]).
  all: try (eexists; split; [reflexivity|]; right; right; exists 0%nat;
            reflexivity).
  all: match goal with
       | Htopic : Js.toStr ?t = Ok _
         |- context [runAssessmentCycle ?s ?t ?g ?m ?c ?w1] =>
           pose proof (runAssessmentCycle_requests s t g m c w1) as Hreq;
           pose proof (runAssessmentCycle_spec s t g m c w1) as (Hok & _);
           cbv zeta in Hreq; rewrite Htopic in Hreq;
           destruct Hreq as [contextStr Hreq];
           destruct (runAssessmentCycle s t g m c w1) as [r w2];
           cbn in *; subst r; cbn; rewrite Hreq;
           eexists; split; [rewrite <- app_assoc; reflexivity|];
           right; left; reflexivity
       | |- context [runContentCycle ?s ?t ?g ?f ?c ?w1] =>
           pose proof (runContentCycle_requests s t g f c w1) as Hreq;
           pose proof (runContentCycle_spec s t g f c w1) as (Hok & _);
           cbv zeta in Hreq;
           destruct Hreq as (added & k & Hreq & Hagents & _);
           destruct (runContentCycle s t g f c w1) as [r w2];
           cbn in *; subst r; cbn; rewrite Hreq;
           eexists; split; [rewrite <- app_assoc; reflexivity|];
           right; right; exists k; cbn; now rewrite Hagents
       end.
Qed.

(** X9.  No event repeats a request or retries one, and the order of the
    calls is fixed.  The requests before an event stay as they are; an
    answer adds the adaptation request and one assessment request, or a
    run that starts the list adaptation, curator, safety, language and
    stops where a call fails; Start and Continue add at most the one
    assessment request; the other events add none. *)
Theorem requests_per_event (service : nat -> reply) (w : World) (ev : event) :
  exists added,
    requests (fire service ev w) = requests w ++ added
    /\ match ev with
       | Answer _ =>
           map requestAgent added = [ADAPTATION; ASSESSMENT]
           \/ exists k,
                map requestAgent added
                = firstn k [ADAPTATION; CURATOR; SAFETY; LANGUAGE]
       | Start | Continue =>
           exists k, map requestAgent added = firstn k [ASSESSMENT]
       | _ => added = []
       end.
Proof.
  assert (Hnone : forall w' : World,
             requests w' = requests w ->
             exists added, requests w' = requests w ++ added /\ added = []).
  { intros w' E. exists []. now rewrite app_nil_r. }
  assert (Hfew : forall (w' : World) agents,
             requests w' = requests w ->
             exists added,
               requests w' = requests w ++ added
               /\ exists k, map requestAgent added = firstn k agents).
  { intros w' agents E. exists []. rewrite app_nil_r. split; [exact E|].
    exists 0%nat. reflexivity. }
  assert (Hfew' : forall (w' : World) agents,
             requests w' = requests w ->
             exists added,
               requests w' = requests w ++ added
               /\ (map requestAgent added = [ADAPTATION; ASSESSMENT]
                   \/ exists k, map requestAgent added = firstn k agents)).
  { intros w' agents E. destruct (Hfew w' agents E) as (added & E' & Hk).
    exists added. split; [exact E' | right; exact Hk]. }
  destruct ev; unfold fire, run; try (apply Hnone; reflexivity).
  - (* Start *)
    unfold handleStart.
    destruct (Js.blank (topicInput w) || String.eqb (selectedCourse w) "");
      [apply Hfew; reflexivity|].
    unfold_monad. cbn.
    match goal with
    | |- context [runAssessmentCycle ?s ?t ?g ?m ?c ?w1] =>
        pose proof (runAssessmentCycle_requests s t g m c w1) as Hreq
    end.
    cbv zeta in Hreq. cbn in Hreq. destruct Hreq as [contextStr Hreq].
    rewrite Hreq. eexists. split; [reflexivity|]. exists 1%nat. reflexivity.
  - (* Answer *)
    unfold handleAnswer.
    destruct (session (state w)) as [s|] eqn:Hs; [|apply Hfew'; reflexivity].
    destruct (Js.truthy (currentQuestion w)); [|apply Hfew'; reflexivity].
    unfold_monad. cbn.
    destruct (Js.get (currentQuestion w) "correctOptionIndex"); cbn;
      [|apply Hfew'; reflexivity].
    rewrite Hs.
    destruct (Js.get (currentQuestion w) "topic"); cbn;
      [|apply Hfew'; reflexivity].
    match goal with
    | |- context [runAdaptationCycle ?s ?r ?l ?m ?t ?c ?w1] =>
        pose proof (runAdaptationCycle_requests s r l m t c w1) as Hreq
    end.
    cbv zeta in Hreq. destruct Hreq as (added & Hreq & Hagents).
    rewrite Hreq. cbn. exists added. split; [reflexivity|].
    destruct Hagents as [E|[E|[k E]]]; rewrite E.
    + right. exists 0%nat. reflexivity.
    + left. reflexivity.
    + right. exists (S k). reflexivity.
  - (* Continue *)
    unfold handleContentNext. unfold_monad. cbn.
    destruct (session (state w)) as [s|]; cbn; [|apply Hfew; reflexivity].
    match goal with
    | |- context [runAssessmentCycle ?s ?t ?g ?m ?c ?w1] =>
        pose proof (runAssessmentCycle_requests s t g m c w1) as Hreq
    end.
    cbv zeta in Hreq. cbn in Hreq. destruct Hreq as [contextStr Hreq].
    rewrite Hreq. eexists. split; [reflexivity|]. exists 1%nat. reflexivity.
  - (* Export *)
    unfold downloadPack.
    destruct (session (state w)); [|apply Hnone; reflexivity].
    apply Hnone. reflexivity.
Qed.

(** X10.  Continue asks for the next question at the session's own topic,
    grade and mastery as they are now: one request, with the difficulty the
    thresholds give for the present mastery. *)
Theorem continue_asks_at_current_mastery (service : nat -> reply) (w : World)
    (s : LearningSession) :
  session (state w) = Some s ->
  exists contextStr,
    requests (fire service Continue w)
    = requests w ++ [AssessmentPrompt (gradeLevel s) (topic s) contextStr
                       (difficultyOf (masteryScore s))].
Proof.
  intros Hs. unfold fire, run, handleContentNext. rewrite Hs.
  unfold_monad. cbn.
  match goal with
  | |- context [runAssessmentCycle ?s ?t ?g ?m ?c ?w1] =>
      pose proof (runAssessmentCycle_requests s t g m c w1) as Hreq
  end.
  cbv zeta in Hreq. cbn in Hreq. exact Hreq.
Qed.

Lemma continue_asks_at_current_mastery_witness :
  exists contextStr,
    requests (fire (scripted []) Continue (assessingAt 80 JNull))
    = requests (assessingAt 80 JNull)
      ++ [AssessmentPrompt "IX" "Algebra" contextStr hard].
Proof.
  apply (continue_asks_at_current_mastery (scripted [])
           (assessingAt 80 JNull)
           {| topic := "Algebra";
              courseName := "Punjab: Grade IX Mathematics";
              gradeLevel := "IX"; masteryScore := 80; history := [] |}).
  reflexivity.
Defined.

(** *** Starting and answering *)

(** X3.  Pressing Start with a topic that is not blank (it has a character
    that is not white space, the no-break space counting as white space)
    and a course chosen begins a fresh session, whatever was there before:
    the topic typed, board and course as course name, the grade found in
    the course name or "9", mastery 0 and an empty history.  The old trace
    is gone, the new one begins with the initialization entry, and one
    request goes out, for an easy question.  Topic and course name are
    Latin-1 text, as every string here. *)
Theorem start_begins_fresh_session (service : nat -> reply) (w : World) :
  Js.blank (topicInput w) = false ->
  selectedCourse w <> "" ->
  let grade :=
    match Grade.gradeMatch (selectedCourse w) with
    | Some g => g
    | None => "9"
    end in
  let w' := fire service Start w in
  session (state w')
  = Some {| topic := topicInput w;
            courseName := (selectedSource w ++ ": " ++ selectedCourse w)%string;
            gradeLevel := grade;
            masteryScore := 0;
            history := [] |}
  /\ (exists outcome,
         logs (state w')
         = [logged SYSTEM "Initialization";
            logged ASSESSMENT "Generating Quiz"; outcome])
  /\ (exists contextStr,
         requests w'
         = requests w ++ [AssessmentPrompt grade (topicInput w) contextStr easy])
  /\ currentStep (state w') = assessing.
Proof.
  intros Hblank Hcourse grade w'. subst w' grade.
  unfold fire, run, handleStart. rewrite Hblank.
  apply String.eqb_neq in Hcourse. rewrite Hcourse. cbn [orb].
  unfold_monad. cbn.
  match goal with
  | |- context [runAssessmentCycle ?s ?t ?g ?m ?c ?w1] =>
      pose proof (runAssessmentCycle_requests s t g m c w1) as Hreq;
      pose proof (runAssessmentCycle_spec s t g m c w1) as Hspec
  end.
  cbv zeta in Hreq, Hspec. cbn in Hreq, Hspec.
  destruct Hspec as (_ & (Hsession & _) & _ & _ & Hcases).
  split; [exact Hsession|]. split; [|split; [exact Hreq|]].
  - destruct Hcases as [(_ & _ & _ & _ & E)|(_ & _ & _ & E)];
      rewrite E; eexists; reflexivity.
  - destruct Hcases as [(_ & _ & _ & E & _)|(_ & _ & E & _)]; exact E.
Qed.

Lemma start_begins_fresh_session_witness :
  let w := fireAll (scripted []) fillForm (assessingAt 60 (sampleQuestion 1)) in
  let w' := fire (scripted []) Start w in
  session (state w')
  = Some {| topic := "Algebra";
            courseName := "Punjab: Grade IX Mathematics";
            gradeLevel := "IX";
            masteryScore := 0;
            history := [] |}
  /\ (exists outcome,
         logs (state w')
         = [logged SYSTEM "Initialization";
            logged ASSESSMENT "Generating Quiz"; outcome])
  /\ (exists contextStr,
         requests w'
         = requests w ++ [AssessmentPrompt "IX" "Algebra" contextStr easy])
  /\ currentStep (state w') = assessing.
Proof.
  cbv zeta.
  apply (start_begins_fresh_session (scripted [])
           (fireAll (scripted []) fillForm (assessingAt 60 (sampleQuestion 1)))).
  - vm_compute. reflexivity.
  - vm_compute. discriminate.
Defined.

(** What an answer leaves in the session: topic, course and grade as they
    were, the mastery moved by the grading of the answer, and one more
    history entry holding the question asked and that grading.  The index
    the user chose is not kept. *)
Lemma fire_Answer_session (service : nat -> reply) (w : World) (index : Z)
    (s : LearningSession) (correct : jsval) :
  session (state w) = Some s ->
  Js.truthy (currentQuestion w) = true ->
  Js.get (currentQuestion w) "correctOptionIndex" = Ok correct ->
  let right := Js.strict_eq (JNumber index) correct in
  session (state (fire service (Answer index) w))
  = Some {| topic := topic s;
            courseName := courseName s;
            gradeLevel := gradeLevel s;
            masteryScore :=
              if right then Z.min 100 (masteryScore s + 20)
              else Z.max 0 (masteryScore s - 10);
            history := history s ++ [quizEntry (currentQuestion w) right] |}.
Proof.
  intros Hs Hq Hc right. subst right.
  unfold fire, run, handleAnswer. rewrite Hs, Hq, Hc.
  unfold_monad. cbn. rewrite Hs.
  destruct (Js.get (currentQuestion w) "topic") as [t|e]; cbn;
    [|reflexivity].
  use_adaptation H. cbn.
  destruct H as (_ & (Hsession & _) & _). exact Hsession.
Qed.

(** X11.  The session a transition leaves does not depend on what the
    service answers: mastery and history are settled by the local grading
    alone. *)
Theorem session_is_independent_of_the_service (service1 service2 : nat -> reply)
    (w : World) (ev : event) :
  session (state (fire service1 ev w)) = session (state (fire service2 ev w)).
Proof.
  destruct ev; unfold fire, run.
  - reflexivity.
  - reflexivity.
  - reflexivity.
  - (* Start *)
    unfold handleStart.
    destruct (Js.blank (topicInput w) || String.eqb (selectedCourse w) "");
      [reflexivity|].
    unfold_monad. cbn.
    repeat match goal with
    | |- context [runAssessmentCycle ?s ?t ?g ?m ?c ?w1] =>
        let H := fresh "H" in
        pose proof (runAssessmentCycle_spec s t g m c w1) as H;
        cbv zeta in H; destruct H as (_ & (H & _) & _);
        cbn in H; rewrite H
    end.
    reflexivity.
  - (* Answer *)
    unfold handleAnswer.
    destruct (session (state w)) as [s|] eqn:Hs; [|cbn; congruence].
    destruct (Js.truthy (currentQuestion w)); [|cbn; congruence].
    unfold_monad. cbn.
    destruct (Js.get (currentQuestion w) "correctOptionIndex"); cbn;
      [|congruence].
    rewrite Hs.
    destruct (Js.get (currentQuestion w) "topic"); cbn; [|reflexivity].
    repeat match goal with
    | |- context [runAdaptationCycle ?s ?r ?l ?m ?t ?c ?w1] =>
        let H := fresh "H" in
        pose proof (runAdaptationCycle_spec s r l m t c w1) as H;
        cbv zeta in H; destruct H as (_ & (H & _) & _);
        cbn in H; rewrite H
    end.
    reflexivity.
  - (* Continue *)
    unfold handleContentNext. unfold_monad. cbn.
    destruct (session (state w)) as [s|]; cbn; [|reflexivity].
    repeat match goal with
    | |- context [runAssessmentCycle ?s ?t ?g ?m ?c ?w1] =>
        let H := fresh "H" in
        pose proof (runAssessmentCycle_spec s t g m c w1) as H;
        cbv zeta in H; destruct H as (_ & (H & _) & _);
        cbn in H; rewrite H
    end.
    reflexivity.
  - reflexivity.
  - (* Export *)
    unfold downloadPack. destruct (session (state w)) eqn:Hs; cbn;
      [exact eq_refl | exact eq_refl].
Qed.

(** *** Replies of the wrong shape *)

(** X12.  A decision whose [nextAction] is missing or not a string stops the
    adaptation cycle at once: a [TypeError] is printed, no other request is
    sent, the trace gets the "Analyzing Path" entry only, the loading flag
    is cleared and nothing is shown. *)
Theorem decision_without_action_aborts (service : nat -> reply)
    (rendered w : World) (lastCorrect : bool) (mastery : Z)
    (topic courseContext : string) (plan action : jsval) :
  service (List.length (requests w)) = Resolved (Json plan) ->
  Js.get plan "nextAction" = Ok action ->
  (forall text, action <> JString text) ->
  let w' :=
    snd (runAdaptationCycle service rendered lastCorrect mastery
           (JString topic) courseContext w) in
  console w' = console w ++ [TypeError]
  /\ requests w' = requests w ++ [AdaptationPrompt topic lastCorrect mastery]
  /\ logs (state w') = logs (state w) ++ [logged ADAPTATION "Analyzing Path"]
  /\ isLoading (state w') = false
  /\ currentQuestion w' = JNull
  /\ currentContent w' = currentContent w.
Proof.
  intros Hreply Haction Hnot. cbv zeta.
  unfold runAdaptationCycle, adaptPath. unfold_monad. cbn.
  rewrite Hreply. cbn. rewrite Haction. cbn.
  destruct action; try (cbn; repeat split; reflexivity).
  now elim (Hnot s).
Qed.

Lemma decision_without_action_aborts_witness :
  let plan := JObject [("reasoning", JString "needs practice")] in
  let w' :=
    snd (runAdaptationCycle (scripted [Resolved (Json plan)]) initialWorld
           true 20 (JString "Algebra") "Punjab: Grade IX Mathematics"
           initialWorld) in
  console w' = console initialWorld ++ [TypeError]
  /\ requests w' = requests initialWorld ++ [AdaptationPrompt "Algebra" true 20]
  /\ logs (state w')
     = logs (state initialWorld) ++ [logged ADAPTATION "Analyzing Path"]
  /\ isLoading (state w') = false
  /\ currentQuestion w' = JNull
  /\ currentContent w' = currentContent initialWorld.
Proof.
  cbv zeta.
  apply (decision_without_action_aborts
           (scripted [Resolved (Json (JObject [("reasoning", JString "needs practice")]))])
           initialWorld initialWorld true 20 "Algebra"
           "Punjab: Grade IX Mathematics"
           (JObject [("reasoning", JString "needs practice")]) JUndefined).
  - reflexivity.
  - reflexivity.
  - discriminate.
Defined.

(** X13.  A curated material whose [content] is missing or not a string is
    never shown: the safety check throws before it contacts the service, so
    the curator's request is the only one, a [TypeError] is printed, and the
    current material stays what it was. *)
Theorem material_without_text_is_dropped (service : nat -> reply) (w : World)
    (topic grade focus courseContext title : string) (raw body : jsval) :
  service (List.length (requests w)) = Resolved (Json raw) ->
  Js.get raw "title" = Ok (JString title) ->
  Js.get raw "content" = Ok body ->
  (forall text, body <> JString text) ->
  let w' :=
    snd (runContentCycle service (JString topic) grade (JString focus)
           courseContext w) in
  console w' = console w ++ [TypeError]
  /\ (exists contextStr,
         requests w' = requests w ++ [CuratorPrompt topic focus grade contextStr])
  /\ currentContent w' = currentContent w
  /\ currentStep (state w') = currentStep (state w)
  /\ isLoading (state w') = false.
Proof.
  intros Hreply Htitle Hbody Hnot. cbv zeta.
  unfold runContentCycle, curateContent, safetyCheck. unfold_monad. cbn.
  rewrite Hreply. cbn. rewrite Htitle. cbn. rewrite Hbody. cbn.
  destruct body; try (cbn; repeat split; eexists; reflexivity).
  now elim (Hnot s).
Qed.

Lemma material_without_text_is_dropped_witness :
  let raw := JObject [("title", JString "Adding numbers")] in
  let w' :=
    snd (runContentCycle (scripted [Resolved (Json raw)]) (JString "Algebra")
           "IX" (JString "addition") "Punjab: Grade IX Mathematics"
           initialWorld) in
  console w' = console initialWorld ++ [TypeError]
  /\ (exists contextStr,
         requests w'
         = requests initialWorld
           ++ [CuratorPrompt "Algebra" "addition" "IX" contextStr])
  /\ currentContent w' = currentContent initialWorld
  /\ currentStep (state w') = currentStep (state initialWorld)
  /\ isLoading (state w') = false.
Proof.
  cbv zeta.
  apply (material_without_text_is_dropped
           (scripted [Resolved (Json (JObject [("title", JString "Adding numbers")]))])
           initialWorld "Algebra" "IX" "addition"
           "Punjab: Grade IX Mathematics" "Adding numbers"
           (JObject [("title", JString "Adding numbers")]) JUndefined).
  - reflexivity.
  - reflexivity.
  - reflexivity.
  - discriminate.
Defined.

Lemma runContentCycle_first_request (service : nat -> reply)
    (topic grade focus courseContext : string) (w : World) :
  exists contextStr rest,
    requests (snd (runContentCycle service (JString topic) grade
                     (JString focus) courseContext w))
    = requests w ++ CuratorPrompt topic focus grade contextStr :: rest.
Proof.
  unfold runContentCycle, curateContent, safetyCheck, bridgeLanguage.
  unfold_monad. eexists. exec.
  all: eexists; rewrite <- ?app_assoc; cbn; reflexivity.
Qed.

(** X14.  The decision selects the cycle.  When its [reasoning] converts
    to text (the detail of the "Path Updated" entry embeds it): with
    [nextAction] the string "quiz" the adaptation request is followed by
    one assessment request, asked with the grade of the session and the
    mastery the cycle was given, and the current material is left alone;
    with any other string and a [suggestedFocus] that is a string it is
    followed by the curator's request for that focus, and no question
    becomes current.  When the [reasoning] does not convert to text, the
    cycle stops after the adaptation request: the error is printed, the
    loading flag cleared, and neither a question nor a new material is
    current. *)
Theorem decision_selects_the_cycle (service : nat -> reply)
    (rendered w : World) (lastCorrect : bool) (mastery : Z)
    (topic courseContext action : string) (plan reasoning : jsval) :
  service (List.length (requests w)) = Resolved (Json plan) ->
  Js.get plan "nextAction" = Ok (JString action) ->
  Js.get plan "reasoning" = Ok reasoning ->
  let w' :=
    snd (runAdaptationCycle service rendered lastCorrect mastery
           (JString topic) courseContext w) in
  match Js.toStr reasoning with
  | Ok _ =>
      (action = "quiz" ->
       currentContent w' = currentContent w
       /\ exists contextStr,
            requests w'
            = requests w ++ [AdaptationPrompt topic lastCorrect mastery;
                             AssessmentPrompt (gradeOrDefault rendered) topic
                               contextStr (difficultyOf mastery)])
      /\ (action <> "quiz" ->
          forall focus,
            Js.get plan "suggestedFocus" = Ok (JString focus) ->
            currentQuestion w' = JNull
            /\ exists contextStr rest,
                 requests w'
                 = requests w ++ AdaptationPrompt topic lastCorrect mastery
                     :: CuratorPrompt topic focus (gradeOrDefault rendered)
                          contextStr
                     :: rest)
  | Throw e =>
      console w' = console w ++ [e]
      /\ requests w' = requests w ++ [AdaptationPrompt topic lastCorrect mastery]
      /\ logs (state w')
         = logs (state w) ++ [logged ADAPTATION "Analyzing Path"]
      /\ isLoading (state w') = false
      /\ currentQuestion w' = JNull
      /\ currentContent w' = currentContent w
  end.
Proof.
  intros Hreply Haction Hreasoning. cbv zeta.
  unfold runAdaptationCycle, adaptPath. unfold_monad. cbn.
  rewrite Hreply. cbn. rewrite Haction. cbn. rewrite Hreasoning. cbn.
  destruct (Js.toStr reasoning) as [reasonText|e]; cbn;
    [|repeat split; reflexivity].
  split.
  - intros ->. cbn.
    match goal with
    | |- context [runAssessmentCycle ?s ?t ?g ?m ?c ?w1] =>
        pose proof (runAssessmentCycle_requests s t g m c w1) as Hreq;
        pose proof (runAssessmentCycle_spec s t g m c w1) as Hspec;
        cbv zeta in Hreq, Hspec; cbn in Hreq, Hspec;
        destruct (runAssessmentCycle s t g m c w1) as [r w2]
    end.
    cbn in *. destruct Hspec as (-> & _ & Hcontent & _). cbn.
    split; [exact Hcontent|].
    destruct Hreq as [contextStr Hreq]. exists contextStr.
    rewrite Hreq, <- app_assoc. reflexivity.
  - intros Hother focus Hfocus.
    apply String.eqb_neq in Hother. rewrite Hother. rewrite Hfocus. cbn.
    match goal with
    | |- context [runContentCycle ?s (JString ?t) ?g (JString ?f) ?c ?w1] =>
        pose proof (runContentCycle_first_request s t g f c w1) as Hreq;
        pose proof (runContentCycle_spec s (JString t) g (JString f) c w1)
          as Hspec;
        cbv zeta in Hspec; cbn in Hreq, Hspec;
        destruct (runContentCycle s (JString t) g (JString f) c w1) as [r w2]
    end.
    cbn in *. destruct Hspec as (-> & _ & Hquestion & _). cbn.
    split; [exact Hquestion|].
    destruct Hreq as (contextStr & rest & Hreq). exists contextStr, rest.
    rewrite Hreq, <- app_assoc. reflexivity.
Qed.

Lemma decision_selects_the_cycle_witness :
  let service := scripted [Resolved (Json (sampleDecision "content"))] in
  let w' :=
    snd (runAdaptationCycle service (assessingAt 20 JNull) true 20
           (JString "Algebra") "Punjab: Grade IX Mathematics"
           (assessingAt 20 JNull)) in
  currentQuestion w' = JNull
  /\ exists contextStr rest,
       requests w'
       = requests (assessingAt 20 JNull)
         ++ AdaptationPrompt "Algebra" true 20
            :: CuratorPrompt "Algebra" "addition" "IX" contextStr :: rest.
Proof.
  cbv zeta.
  pose proof (decision_selects_the_cycle
                (scripted [Resolved (Json (sampleDecision "content"))])
                (assessingAt 20 JNull) (assessingAt 20 JNull) true 20
                "Algebra" "Punjab: Grade IX Mathematics" "content"
                (sampleDecision "content") (JString "needs practice")
                eq_refl eq_refl eq_refl) as H.
  cbv zeta in H. simpl (Js.toStr _) in H. cbv iota in H.
  destruct H as [_ Hcontent].
  apply Hcontent.
  - discriminate.
  - reflexivity.
Defined.

(** *** What never happens *)

(** An event leaves the offline switch alone and either keeps the step or
    moves it to [assessing] or [learning]. *)
Lemma fire_step (service : nat -> reply) (w : World) (ev : event) :
  isOfflineMode (state (fire service ev w)) = isOfflineMode (state w)
  /\ (currentStep (state (fire service ev w)) = currentStep (state w)
      \/ currentStep (state (fire service ev w)) = assessing
      \/ currentStep (state (fire service ev w)) = learning).
Proof.
  destruct ev; unfold fire, run.
  - split; [reflexivity | now left].
  - split; [reflexivity | now left].
  - split; [reflexivity | now left].
  - (* Start *)
    unfold handleStart.
    destruct (Js.blank (topicInput w) || String.eqb (selectedCourse w) "");
      [split; [reflexivity | now left]|].
    unfold_monad. cbn. use_cycle H. cbn.
    destruct H as (_ & (_ & _ & Hoff & _) & _ & _ & Hcases). cbn in *.
    split; [exact Hoff|]. right; left.
    destruct Hcases as [(_ & _ & _ & E & _)|(_ & _ & E & _)]; exact E.
  - (* Answer *)
    unfold handleAnswer.
    destruct (session (state w)) as [s|] eqn:Hs;
      [|split; [reflexivity | now left]].
    destruct (Js.truthy (currentQuestion w));
      [|split; [reflexivity | now left]].
    unfold_monad. cbn.
    destruct (Js.get (currentQuestion w) "correctOptionIndex"); cbn;
      [|split; [reflexivity | now left]].
    rewrite Hs.
    destruct (Js.get (currentQuestion w) "topic"); cbn;
      [|split; [reflexivity | now left]].
    use_adaptation H. cbn.
    destruct H as (_ & (_ & _ & Hoff & _) & _ & Hcases). cbn in *.
    split; [exact Hoff|].
    destruct Hcases as [(_ & _ & _ & _ & E)|[(_ & _ & _ & E)|(_ & _ & _ & E)]];
      rewrite E; auto.
  - (* Continue *)
    unfold handleContentNext. unfold_monad. cbn.
    destruct (session (state w)) as [s|]; cbn;
      [|split; [reflexivity | now left]].
    use_cycle H. cbn.
    destruct H as (_ & (_ & _ & Hoff & _) & _ & _ & Hcases). cbn in *.
    split; [exact Hoff|].
    destruct Hcases as [(_ & _ & _ & E & _)|(_ & _ & E & _)];
      rewrite E; auto.
  - split; [reflexivity | now left].
  - (* Export *)
    unfold downloadPack.
    destruct (session (state w)); split; try reflexivity; now left.
Qed.

(** X15.  The step [summary] is never entered and the offline mode is never
    switched on: no handler dispatches [TOGGLE_OFFLINE_MODE], and the
    reducer sets the step to [assessing] or [learning] only. *)
Theorem never_summary_never_offline (service : nat -> reply) (w : World) :
  reachable service w ->
  currentStep (state w) <> summary /\ isOfflineMode (state w) = false.
Proof.
  induction 1 as [|w ev _ [IHstep IHoff] _].
  - split; [discriminate | reflexivity].
  - destruct (fire_step service w ev) as [Hoff Hstep].
    split; [|congruence].
    destruct Hstep as [E|[E|E]]; rewrite E;
      [exact IHstep | discriminate | discriminate].
Qed.

Lemma never_summary_never_offline_witness :
  let w :=
    fireAll (scripted [Resolved (Json (sampleQuestion 1)); Rejected])
      (fillForm ++ [Start; Answer 1; ToggleBandwidth]) initialWorld in
  currentStep (state w) <> summary /\ isOfflineMode (state w) = false.
Proof.
  cbv zeta.
  apply (never_summary_never_offline
           (scripted [Resolved (Json (sampleQuestion 1)); Rejected])).
  apply reachable_fireAll;
    [apply reachable_initial | vm_compute; reflexivity].
Defined.

(** X16.  Once the start form is gone it does not come back, so Start cannot
    be pressed a second time: a page holds at most one session. *)
Theorem start_form_never_returns (service : nat -> reply) (w : World)
    (ev : event) :
  currentStep (state w) <> idle ->
  currentStep (state (fire service ev w)) <> idle
  /\ enabled (fire service ev w) Start = false.
Proof.
  intros Hstep.
  assert (Hafter : currentStep (state (fire service ev w)) <> idle).
  { destruct (fire_step service w ev) as [_ [E|[E|E]]]; rewrite E;
      [exact Hstep | discriminate | discriminate]. }
  split; [exact Hafter|].
  unfold enabled, formShown.
  destruct (currentStep (state (fire service ev w)));
    [now elim Hafter | reflexivity | reflexivity | reflexivity].
Qed.

Lemma start_form_never_returns_witness :
  let w :=
    fireAll (scripted [Rejected]) (fillForm ++ [Start]) initialWorld in
  currentStep (state (fire (scripted [Rejected]) ToggleBandwidth w)) <> idle
  /\ enabled (fire (scripted [Rejected]) ToggleBandwidth w) Start = false.
Proof.
  cbv zeta.
  apply (start_form_never_returns (scripted [Rejected])).
  vm_compute. discriminate.
Defined.

(** X17.  Topic, course and grade of a session are fixed when it starts: no
    event the user can trigger afterwards changes them. *)
Theorem session_identity_is_fixed (service : nat -> reply) (w : World)
    (ev : event) (s : LearningSession) :
  reachable service w ->
  enabled w ev = true ->
  session (state w) = Some s ->
  exists s',
    session (state (fire service ev w)) = Some s'
    /\ topic s' = topic s
    /\ courseName s' = courseName s
    /\ gradeLevel s' = gradeLevel s.
Proof.
  intros Hreach Hen Hs. apply reachable_settled in Hreach.
  destruct Hreach as (Hidle & _).
  assert (Hsame : forall w', session (state w') = session (state w) ->
                             exists s',
                               session (state w') = Some s'
                               /\ topic s' = topic s
                               /\ courseName s' = courseName s
                               /\ gradeLevel s' = gradeLevel s).
  { intros w' E. exists s. rewrite E, Hs. repeat split. }
  destruct ev; cbn in Hen; try (apply Hsame; reflexivity).
  - (* Start *)
    apply andb_prop in Hen as [Hen _]. apply andb_prop in Hen as [Hform _].
    apply formShown_inv in Hform. destruct (Hidle Hform) as (_ & _ & Hnone).
    congruence.
  - (* Answer *)
    apply andb_prop in Hen as [Hshown _].
    apply quizShown_inv in Hshown as [_ Hq].
    destruct (truthy_get _ "correctOptionIndex" Hq) as [c Hc].
    rewrite (fire_Answer_session service w index s c Hs Hq Hc).
    eexists. split; [reflexivity|]. repeat split.
  - (* Continue *)
    destruct (fire_Continue_spec service w s Hs) as (Hs' & _).
    apply Hsame. now rewrite Hs'.
  - (* Export *)
    apply Hsame. unfold fire, run, downloadPack. rewrite Hs.
    unfold_monad. cbn. exact Hs.
Qed.

Lemma session_identity_is_fixed_witness :
  let service := scripted [Resolved (Json (sampleQuestion 1)); Rejected] in
  let w := fireAll service (fillForm ++ [Start]) initialWorld in
  exists s',
    session (state (fire service (Answer 1) w)) = Some s'
    /\ topic s' = "Algebra"
    /\ courseName s' = "Punjab: Grade IX Mathematics"
    /\ gradeLevel s' = "IX".
Proof.
  cbv zeta.
  apply (session_identity_is_fixed
           (scripted [Resolved (Json (sampleQuestion 1)); Rejected])
           (fireAll (scripted [Resolved (Json (sampleQuestion 1)); Rejected])
              (fillForm ++ [Start]) initialWorld)
           (Answer 1)
           {| topic := "Algebra";
              courseName := "Punjab: Grade IX Mathematics";
              gradeLevel := "IX"; masteryScore := 0; history := [] |}).
  - apply reachable_fireAll;
      [apply reachable_initial | vm_compute; reflexivity].
  - vm_compute. reflexivity.
  - vm_compute. reflexivity.
Defined.

(** *** The text sent to the safety check *)





(** *** The grade of a course *)






(** *** Runs of answers *)

(** X20.  A run of [n] right answers from mastery [m] gives [min 100 (m + 20
    n)], a run of [n] wrong ones [max 0 (m - 10 n)]: the score saturates at
    the two ends and stays there. The history gains one quiz entry per
    answer, in the order of the answers. *)
Theorem streak_mastery (correct : bool) (questions : list jsval) :
  forall (state : AppState) (s : LearningSession),
    session state = Some s ->
    0 <= masteryScore s <= 100 ->
    exists s',
      session (recordAll correct questions state) = Some s'
      /\ masteryScore s' =
           (if correct
            then Z.min 100 (masteryScore s
                            + 20 * Z.of_nat (List.length questions))
            else Z.max 0 (masteryScore s
                          - 10 * Z.of_nat (List.length questions)))
      /\ history s' = history s ++ map (fun q => quizEntry q correct) questions.
Proof.
  induction questions as [|q rest IH]; intros state s Hs Hm.
  - exists s. cbn. rewrite app_nil_r. split; [exact Hs|].
    split; [destruct correct; lia | reflexivity].
  - cbn [recordAll fold_left].
    destruct (IH (appReducer state (RECORD_ANSWER q correct))
                {| topic := topic s; courseName := courseName s;
                   gradeLevel := gradeLevel s;
                   masteryScore :=
                     if correct then Z.min 100 (masteryScore s + 20)
                     else Z.max 0 (masteryScore s - 10);
                   history := history s ++ [quizEntry q correct] |})
      as (s' & Hs' & Hm' & Hh').
    + cbn. rewrite Hs. reflexivity.
    + cbn. destruct correct; lia.
    + exists s'. split; [exact Hs'|]. cbn [masteryScore history] in Hm', Hh'.
      split.
      * rewrite Hm'. cbn [List.length]. rewrite Nat2Z.inj_succ.
        destruct correct; lia.
      * rewrite Hh', <- app_assoc. reflexivity.
Qed.

Lemma streak_mastery_witness :
  exists s',
    session (recordAll true
               [sampleQuestion 0; sampleQuestion 1; sampleQuestion 2;
                sampleQuestion 3; sampleQuestion 0; sampleQuestion 1]
               (state (assessingAt 0 (sampleQuestion 0)))) = Some s'
    /\ masteryScore s' = Z.min 100 (0 + 20 * 6)
    /\ history s'
       = [] ++ map (fun q => quizEntry q true)
                 [sampleQuestion 0; sampleQuestion 1; sampleQuestion 2;
                  sampleQuestion 3; sampleQuestion 0; sampleQuestion 1].
Proof.
  apply (streak_mastery true
           [sampleQuestion 0; sampleQuestion 1; sampleQuestion 2;
            sampleQuestion 3; sampleQuestion 0; sampleQuestion 1]
           (state (assessingAt 0 (sampleQuestion 0)))
           {| topic := "Algebra";
              courseName := "Punjab: Grade IX Mathematics";
              gradeLevel := "IX"; masteryScore := 0; history := [] |}).
  - reflexivity.
  - simpl. lia.
Defined.

(** *** Actions out of place *)

(** X21.  An action the current state does not allow changes nothing at all:
    Start with a blank topic or no course, an answer without a session or
    without a current question, an export without a session. Continue
    without a session only drops the current material. *)
Theorem actions_out_of_place_do_nothing (service : nat -> reply) (w : World) :
  (Js.blank (topicInput w) = true \/ selectedCourse w = "" ->
   fire service Start w = w)
  /\ (forall index,
         session (state w) = None \/ Js.truthy (currentQuestion w) = false ->
         fire service (Answer index) w = w)
  /\ (session (state w) = None -> fire service Export w = w)
  /\ (session (state w) = None ->
      state (fire service Continue w) = state w
      /\ currentQuestion (fire service Continue w) = currentQuestion w
      /\ currentContent (fire service Continue w) = JNull
      /\ requests (fire service Continue w) = requests w).
Proof.
  unfold fire, run. split; [|split; [|split]].
  - unfold handleStart. intros [Hblank|Hcourse].
    + rewrite Hblank. reflexivity.
    + rewrite Hcourse, orb_true_r. reflexivity.
  - unfold handleAnswer. intros index [Hnone|Hq].
    + rewrite Hnone. reflexivity.
    + destruct (session (state w)); [rewrite Hq|]; reflexivity.
  - unfold downloadPack. intros Hnone. rewrite Hnone. reflexivity.
  - unfold handleContentNext. unfold_monad. cbn. intros Hnone.
    rewrite Hnone. repeat split.
Qed.

(** *** The exported pack *)

Lemma filter_by_type (entries : list HistoryEntry) :
  (List.length (filter (fun h => is_content (type h)) entries)
   + List.length (filter (fun h => is_quiz (type h)) entries)
   = List.length entries)%nat.
Proof.
  induction entries as [|h rest IH]; [reflexivity|].
  cbn. destruct (type h); cbn; lia.
Qed.

(** X7.  Export adds one pack and loses nothing: every history entry's data
    is in the pack, under [reviewQuizzes] if it is a quiz entry and under
    [materials] if it is a content entry, so the two lists together are as
    long as the history. The pack's log is the trace as it was when Export
    was pressed. *)
Theorem export_partitions_the_history (service : nat -> reply) (w : World)
    (s : LearningSession) :
  session (state w) = Some s ->
  exists pack,
    downloads (fire service Export w) = downloads w ++ [pack]
    /\ (List.length (Pack.materials pack)
        + List.length (Pack.reviewQuizzes pack)
        = List.length (history s))%nat
    /\ (forall h, In h (history s) ->
          In (data h)
             (match type h with
              | quiz => Pack.reviewQuizzes pack
              | content => Pack.materials pack
              end))
    /\ Pack.logs pack = logs (state w)
    /\ Pack.topic pack = topic s
    /\ Pack.course pack = courseName s
    /\ Pack.studentLevel pack = gradeLevel s.
Proof.
  intros Hs. unfold fire, run, downloadPack. rewrite Hs.
  unfold_monad. cbn. eexists. split; [reflexivity|]. cbn.
  split; [|split; [|repeat split]].
  - rewrite !length_map. apply filter_by_type.
  - intros h Hin.
    destruct (type h) eqn:Ht; apply in_map; apply filter_In;
      (split; [exact Hin | now rewrite Ht]).
Qed.

Lemma export_partitions_the_history_witness :
  exists pack,
    downloads (fire (scripted []) Export mixedWorld)
    = downloads mixedWorld ++ [pack]
    /\ (List.length (Pack.materials pack)
        + List.length (Pack.reviewQuizzes pack)
        = List.length (history mixedHistory))%nat
    /\ (forall h, In h (history mixedHistory) ->
          In (data h)
             (match type h with
              | quiz => Pack.reviewQuizzes pack
              | content => Pack.materials pack
              end))
    /\ Pack.logs pack = logs (state mixedWorld)
    /\ Pack.topic pack = topic mixedHistory
    /\ Pack.course pack = courseName mixedHistory
    /\ Pack.studentLevel pack = gradeLevel mixedHistory.
Proof.
  apply (export_partitions_the_history (scripted []) mixedWorld mixedHistory).
  reflexivity.
Defined.

(** *** The bandwidth mode *)

Lemma runAssessmentCycle_bandwidth (service : nat -> reply) (low : bool)
    (topic : jsval) (grade : string) (mastery : Z)
    (courseContext : option string) (w : World) :
  runAssessmentCycle service topic grade mastery courseContext
    (withBandwidth low w)
  = (fst (runAssessmentCycle service topic grade mastery courseContext w),
     withBandwidth low
       (snd (runAssessmentCycle service topic grade mastery courseContext w))).
Proof.
  unfold runAssessmentCycle, generateAssessment, withBandwidth.
  unfold_monad. exec. all: reflexivity.
Qed.

Lemma runContentCycle_bandwidth (service : nat -> reply) (low : bool)
    (topic : jsval) (grade : string) (focus : jsval) (courseContext : string)
    (w : World) :
  runContentCycle service topic grade focus courseContext (withBandwidth low w)
  = (fst (runContentCycle service topic grade focus courseContext w),
     withBandwidth low
       (snd (runContentCycle service topic grade focus courseContext w))).
Proof.
  unfold runContentCycle, curateContent, safetyCheck, bridgeLanguage,
    withBandwidth.
  unfold_monad. exec. all: reflexivity.
Qed.

Ltac bandwidth_cycle low :=
  match goal with
  | |- context [runAssessmentCycle ?s ?t ?g ?m ?c
                  (mkWorld (mkState ?o ?b ?cs ?l ?se ?lo)
                     ?q ?ct ?ti ?ss ?sc ?co ?rq ?dl)] =>
      tryif constr_eq b low then fail else idtac;
      let H := fresh "H" in
      let r := fresh "r" in
      let w2 := fresh "w" in
      pose proof (runAssessmentCycle_bandwidth s low t g m c
                    (mkWorld (mkState o b cs l se lo)
                       q ct ti ss sc co rq dl)) as H;
      unfold withBandwidth at 1 in H; cbn in H; rewrite H;
      destruct (runAssessmentCycle s t g m c
                  (mkWorld (mkState o b cs l se lo)
                     q ct ti ss sc co rq dl)) as [r w2];
      cbn; destruct r; reflexivity
  | |- context [runContentCycle ?s ?t ?g ?f ?c
                  (mkWorld (mkState ?o ?b ?cs ?l ?se ?lo)
                     ?q ?ct ?ti ?ss ?sc ?co ?rq ?dl)] =>
      tryif constr_eq b low then fail else idtac;
      let H := fresh "H" in
      let r := fresh "r" in
      let w2 := fresh "w" in
      pose proof (runContentCycle_bandwidth s low t g f c
                    (mkWorld (mkState o b cs l se lo)
                       q ct ti ss sc co rq dl)) as H;
      unfold withBandwidth at 1 in H; cbn in H; rewrite H;
      destruct (runContentCycle s t g f c
                  (mkWorld (mkState o b cs l se lo)
                     q ct ti ss sc co rq dl)) as [r w2];
      cbn; destruct r; reflexivity
  end.

Lemma runAdaptationCycle_bandwidth (service : nat -> reply) (low : bool)
    (rendered : World) (lastCorrect : bool) (mastery : Z) (topic : jsval)
    (courseContext : string) (w : World) :
  runAdaptationCycle service (withBandwidth low rendered) lastCorrect mastery
    topic courseContext (withBandwidth low w)
  = (fst (runAdaptationCycle service rendered lastCorrect mastery topic
            courseContext w),
     withBandwidth low
       (snd (runAdaptationCycle service rendered lastCorrect mastery topic
               courseContext w))).
Proof.
  destruct w as [[o lb cs l se ld] q ct ti ss sc co rq dl].
  unfold runAdaptationCycle, adaptPath, gradeOrDefault.
  unfold_monad. exec.
  all: try reflexivity.
  all: bandwidth_cycle low.
Qed.

(** X22.  The bandwidth switch only changes the presentation: set to either
    position before an event or after it, the outcome is the same, whatever
    the service answers: same session, same trace, same requests, same
    question or material on screen. *)
Theorem bandwidth_does_not_steer_the_flow (service : nat -> reply)
    (low : bool) (ev : event) (w : World) :
  ev <> ToggleBandwidth ->
  fire service ev (withBandwidth low w)
  = withBandwidth low (fire service ev w).
Proof.
  intros Hev.
  destruct w as [[o lb cs l se ld] q ct ti ss sc co rq dl].
  destruct ev; try congruence; try reflexivity.
  - unfold fire, run, handleStart. cbn [withBandwidth topicInput selectedCourse selectedSource].
    destruct (Js.blank ti || String.eqb sc "").
    + reflexivity.
    + unfold_monad. exec. bandwidth_cycle low.
  - unfold fire, run, handleAnswer.
    cbn [withBandwidth state session currentQuestion].
    destruct se as [s|]; [|reflexivity].
    destruct (negb (Js.truthy q)); [reflexivity|].
    unfold_monad. exec.
    all: try reflexivity.
    all: match goal with
      | |- context [runAdaptationCycle ?s ?rd ?lc ?m ?t ?c
                  (mkWorld (mkState ?o ?b ?cs ?l ?se ?lo)
                     ?q ?ct ?ti ?ss ?sc ?co ?rq ?dl)] =>
      tryif constr_eq b low then fail else idtac;
      let H := fresh "H" in
      let r := fresh "r" in
      let w2 := fresh "w" in
      pose proof (runAdaptationCycle_bandwidth s low rd lc m t c
                    (mkWorld (mkState o b cs l se lo)
                       q ct ti ss sc co rq dl)) as H;
      unfold withBandwidth at 2 in H; cbn in H; rewrite H;
      destruct (runAdaptationCycle s rd lc m t c
                  (mkWorld (mkState o b cs l se lo)
                     q ct ti ss sc co rq dl)) as [r w2];
      cbn; destruct r; reflexivity
      end.
  - unfold fire, run, handleContentNext.
    cbn [withBandwidth state session].
    destruct se as [s|]; [|reflexivity].
    unfold_monad. exec. bandwidth_cycle low.
  - unfold fire, run, downloadPack.
    cbn [withBandwidth state session].
    destruct se as [s|]; reflexivity.
Qed.

(** *** After an error *)

Lemma deadEnd_enabled (w : World) (ev : event) :
  deadEnd w -> enabled w ev = true -> ev = ToggleBandwidth \/ ev = Export.
Proof.
  intros (Hstep & Hq & Hc) Hen.
  assert (Hform : formShown w = false).
  { unfold formShown. destruct (currentStep (state w)); congruence. }
  assert (Hquiz : quizShown w = false).
  { unfold quizShown. rewrite Hq. cbn. apply andb_false_r. }
  assert (Hcont : contentShown w = false).
  { unfold contentShown. rewrite Hc. cbn. apply andb_false_r. }
  destruct ev; cbn in Hen; rewrite ?Hform, ?Hquiz, ?Hcont in Hen;
    try discriminate Hen; auto.
Qed.

Lemma deadEnd_fire (service : nat -> reply) (w : World) (ev : event) :
  deadEnd w -> enabled w ev = true -> deadEnd (fire service ev w).
Proof.
  intros Hdead Hen.
  destruct (deadEnd_enabled w ev Hdead Hen) as [-> | ->].
  - exact Hdead.
  - destruct Hdead as (Hstep & Hq & Hc).
    unfold deadEnd, fire, run, downloadPack.
    destruct (session (state w)); cbn; auto.
Qed.

Lemma error_is_a_deadEnd (service : nat -> reply) (w : World) (ev : event) :
  reachable service w ->
  enabled w ev = true ->
  console (fire service ev w) <> console w ->
  deadEnd (fire service ev w).
Proof.
  intros Hreach Hen Hcon. apply reachable_settled in Hreach.
  destruct Hreach as (Hidle & Hone & Hsess & _ & _).
  destruct ev; cbn in Hen.
  - now elim Hcon.
  - now elim Hcon.
  - now elim Hcon.
  - (* Start *)
    apply andb_prop in Hen as [Hen _]. apply andb_prop in Hen as [Hform _].
    apply formShown_inv in Hform. destruct (Hidle Hform) as (Hq & Hc & _).
    destruct (fire_Start_spec service w) as [E|H];
      [rewrite E in Hcon; now elim Hcon|].
    destruct H as (_ & Hc' & _ & Hstep & _ & [(_ & _ & E & _)|(_ & Hq' & _)]);
      [now elim Hcon|].
    unfold deadEnd. rewrite Hstep, Hq', Hq, Hc', Hc.
    repeat split; discriminate.
  - (* Answer *)
    apply andb_prop in Hen as [Hshown _].
    apply quizShown_inv in Hshown as [Hstep Hq].
    destruct (session (state w)) as [s|] eqn:Hs;
      [| exfalso; apply Hsess; [rewrite Hstep; discriminate | reflexivity]].
    destruct Hone as [Hnull|Hc];
      [rewrite Hnull in Hq; discriminate|].
    destruct (fire_Answer_spec service w index s Hs Hq)
      as (_ & _ & _ & [(_ & _ & _ & E & _)|[(_ & _ & E & _)|H]]);
      [now elim Hcon | now elim Hcon |].
    destruct H as (_ & Hq' & Hc' & Hstep').
    unfold deadEnd. rewrite Hstep', Hstep, Hq', Hc', Hc.
    repeat split; discriminate.
  - (* Continue *)
    apply contentShown_inv in Hen as [Hstep Hc].
    destruct (session (state w)) as [s|] eqn:Hs;
      [| exfalso; apply Hsess; [rewrite Hstep; discriminate | reflexivity]].
    destruct Hone as [Hq|Hnull];
      [|rewrite Hnull in Hc; discriminate].
    destruct (fire_Continue_spec service w s Hs)
      as (_ & Hc' & _ & _ & [(_ & _ & E & _)|(_ & Hq' & Hstep')]);
      [now elim Hcon|].
    unfold deadEnd. rewrite Hstep', Hstep, Hq', Hq, Hc'.
    repeat split; discriminate.
  - now elim Hcon.
  - (* Export *)
    exfalso. apply Hcon. unfold fire, run, downloadPack.
    destruct (session (state w)); reflexivity.
Qed.

(** X23.  In single flight a failed call ends the session for good.  When
    an event prints an error (a start, an answer or a continue one of whose
    calls failed), no card is on screen afterwards, and whatever the user
    does from then on, each event after the handler of the one before has
    finished, is switching the bandwidth mode or exporting the pack: there
    is no retry, the start form does not return, no question and no
    material is requested again.  (Only a handler started from an earlier
    render, as by a second click on an option within the 600 ms of
    [QuizCard], can go on after the error: that is not single flight.) *)
Theorem an_error_ends_the_session (service : nat -> reply) (w : World)
    (ev : event) (later : list event) :
  reachable service w ->
  enabled w ev = true ->
  console (fire service ev w) <> console w ->
  enabledAll service later (fire service ev w) = true ->
  Forall (fun e => e = ToggleBandwidth \/ e = Export) later
  /\ requests (fireAll service later (fire service ev w))
     = requests (fire service ev w).
Proof.
  intros Hreach Hen Hcon.
  pose proof (error_is_a_deadEnd service w ev Hreach Hen Hcon) as Hdead.
  generalize dependent (fire service ev w). clear.
  intros w' _. revert w'.
  induction later as [|e rest IH]; intros w' Hdead Hall.
  - split; [constructor | reflexivity].
  - cbn in Hall. apply andb_prop in Hall as [He Hrest].
    pose proof (deadEnd_enabled w' e Hdead He) as Hwhich.
    destruct (IH (fire service e w') (deadEnd_fire service w' e Hdead He) Hrest)
      as [Hall' Hreq].
    split; [constructor; assumption|].
    change (fireAll service (e :: rest) w')
      with (fireAll service rest (fire service e w')).
    rewrite Hreq.
    destruct Hwhich as [-> | ->]; [reflexivity|].
    unfold fire, run, downloadPack.
    destruct (session (state w')); reflexivity.
Qed.

Lemma an_error_ends_the_session_witness :
  let service := scripted [Resolved (Json (sampleQuestion 1)); Rejected] in
  let w := fireAll service (fillForm ++ [Start]) initialWorld in
  Forall (fun e => e = ToggleBandwidth \/ e = Export)
    [Export; ToggleBandwidth]
  /\ requests (fireAll service [Export; ToggleBandwidth]
                 (fire service (Answer 1) w))
     = requests (fire service (Answer 1) w).
Proof.
  cbv zeta.
  apply (an_error_ends_the_session
           (scripted [Resolved (Json (sampleQuestion 1)); Rejected])).
  - apply reachable_fireAll;
      [apply reachable_initial | vm_compute; reflexivity].
  - vm_compute; reflexivity.
  - vm_compute. discriminate.
  - vm_compute; reflexivity.
Defined.

(** *** The exported file's name *)





(** The no-break space is white space for [trim] and for [\s]: a topic
    made of it leaves the Start button enabled and starts nothing, it
    separates "Grade" from the numeral, and it becomes a hyphen in the
    name of the exported file. *)
Example no_break_space_is_white_space :
  let nbsp := String (ascii_of_nat 160) "" in
  let evs := [SelectSource "Punjab"; SelectCourse "Grade IX Mathematics";
              EditTopic nbsp; Start] in
  enabledAll (scripted []) evs initialWorld = true
  /\ session (state (fireAll (scripted []) evs initialWorld)) = None
  /\ requests (fireAll (scripted []) evs initialWorld) = []
  /\ Grade.gradeMatch ("Grade" ++ nbsp ++ "IX Mathematics")%string = Some "IX"
  /\ packFileName ("Linear" ++ nbsp ++ "Algebra")%string
     = "learning-pack-Linear-Algebra.json".
Proof. vm_compute. repeat split. Qed.

(** *** The colours of the trace *)

(** X25.  In the standard mode the classes [getAgentColor] gives an entry
    tell its agent: two agents never share them. In the low-bandwidth mode
    every entry has the same classes. *)
Theorem getAgentColor_tells_the_agent (a b : AgentType) :
  (getAgentColor a false = getAgentColor b false -> a = b)
  /\ getAgentColor a true = getAgentColor b true.
Proof.
  split; [|reflexivity].
  destruct a, b; cbn; intros H; try reflexivity; discriminate H.
Qed.

(** *** The quiz card *)

Lemma last_cons_default {A : Type} (x : A) (l : list A) (d d' : A) :
  last (x :: l) d = last (x :: l) d'.
Proof.
  revert x. induction l as [|y l IH]; intros x; [reflexivity|].
  change (last (y :: l) d = last (y :: l) d'). apply IH.
Qed.

Lemma clicks_enabled (idxs : list Z) (card : QuizCard.t) :
  QuizCard.clicks false idxs card
  = {| QuizCard.selected :=
         last (map Some idxs) (QuizCard.selected card);
       QuizCard.scheduled :=
         QuizCard.scheduled card ++ map (fun idx => (600, idx)) idxs |}.
Proof.
  revert card. induction idxs as [|i rest IH]; intros card.
  - cbn. rewrite app_nil_r. now destruct card.
  - unfold QuizCard.clicks in *. cbn [fold_left]. rewrite IH.
    cbn [QuizCard.handleSelect QuizCard.selected QuizCard.scheduled map].
    rewrite <- app_assoc. cbn [app]. f_equal.
    destruct rest as [|j rest]; [reflexivity|].
    cbn [map].
    change (last (Some i :: Some j :: map Some rest) (QuizCard.selected card))
      with (last (Some j :: map Some rest) (QuizCard.selected card)).
    apply last_cons_default.
Qed.

(** X26.  While [QuizCard] is on screen it is not disabled (the card is
    drawn only when nothing is loading, and [disabled] is the loading flag),
    so every click on an option counts: the option clicked last is the
    selected one, and each click hands [setTimeout] one call of [onAnswer]
    with its index, 600 ms later, in the order of the clicks. Two clicks
    before the first timer fires give two answers. A disabled card ignores
    the clicks. *)
Theorem quiz_card_schedules_every_click (w : World) (idxs : list Z)
    (card : QuizCard.t) :
  quizShown w = true ->
  QuizCard.clicks (isLoading (state w)) idxs card
  = {| QuizCard.selected :=
         last (map Some idxs) (QuizCard.selected card);
       QuizCard.scheduled :=
         QuizCard.scheduled card ++ map (fun idx => (600, idx)) idxs |}
  /\ QuizCard.clicks true idxs card = card.
Proof.
  intros Hshown. split.
  - unfold quizShown in Hshown.
    destruct (isLoading (state w)); [discriminate Hshown|].
    apply clicks_enabled.
  - unfold QuizCard.clicks. induction idxs as [|i rest IH]; [reflexivity|].
    exact IH.
Qed.

Lemma quiz_card_schedules_every_click_witness :
  let w :=
    fireAll (scripted [Resolved (Json (sampleQuestion 1))])
      (fillForm ++ [Start]) initialWorld in
  QuizCard.clicks (isLoading (state w)) [2; 1] QuizCard.initial
  = {| QuizCard.selected :=
         last (map Some [2; 1]) (QuizCard.selected QuizCard.initial);
       QuizCard.scheduled :=
         QuizCard.scheduled QuizCard.initial
         ++ map (fun idx => (600, idx)) [2; 1] |}
  /\ QuizCard.clicks true [2; 1] QuizCard.initial = QuizCard.initial.
Proof.
  cbv zeta.
  apply (quiz_card_schedules_every_click
           (fireAll (scripted [Resolved (Json (sampleQuestion 1))])
              (fillForm ++ [Start]) initialWorld)).
  vm_compute. reflexivity.
Defined.

Lemma bandwidth_does_not_steer_the_flow_witness :
  let service := scripted [Resolved (Json (sampleQuestion 1))] in
  fire service Start (withBandwidth true (fireAll service fillForm initialWorld))
  = withBandwidth true (fire service Start (fireAll service fillForm initialWorld)).
Proof.
  cbv zeta.
  apply (bandwidth_does_not_steer_the_flow
           (scripted [Resolved (Json (sampleQuestion 1))]) true Start).
  discriminate.
Defined.
